(** * TravelGo (app.py): seat inventory and booking flows

    A shallow embedding of the request handlers of [app.py] that touch the
    [bookings] table: the train and bus flows (seat availability and
    allocation), the flight and hotel confirmations, and cancellation.

    Python dictionaries are finite maps from attribute names to dynamically
    typed values; the [bookings] table is a finite map from its composite
    primary key [(user_email, booking_date)] to items; the session is a
    record of the keys the handlers use.  A handler takes the request, the
    readings of the environment it consults (clock, uuid generator, random
    source) and the world, and returns its response and the new world.

    What the model leaves to its surroundings: requests are handled one at
    a time; the table answers every call (a [query] whose key values are not
    strings and a [put_item] without its primary key are refused, nothing
    else is); the session hands a draft back as it was stored; templates,
    flashed messages and redirects are named, not rendered.

    Registration, login, logout, the dashboard and the search pages come
    after the booking handlers, over a [site] that puts the [users] table
    beside the world; for the booking handlers alone, login and logout are
    represented by their effect on [session['email']]. *)

From Stdlib Require Import ZArith String Ascii List Lia.
From stdpp Require Import base option list gmap strings pretty sets sorting.

Local Open Scope string_scope.
Local Open Scope Z_scope.

#[local] Set Warnings "-clear-no-such-hyp".

(** ** Strings: [str.split(', ')] and [', '.join] *)

Module PyStr.

(** [s.split(c1 c2)] for a two-character separator, scanning left to right
    for non-overlapping occurrences; [cur] is the piece being read. *)
Fixpoint split2_go (c1 c2 : ascii) (cur : string) (s : string) : list string :=
  match s with
  | EmptyString => [cur]
  | String a rest =>
      match rest with
      | String b rest' =>
          if decide (a = c1 ∧ b = c2)
          then cur :: split2_go c1 c2 "" rest'
          else split2_go c1 c2 (cur +:+ String a "") rest
      | EmptyString => [cur +:+ String a ""]
      end
  end.

(** [s.split(', ')] *)
Definition split_comma (s : string) : list string :=
  split2_go "," " " "" s.

(** [', '.join(l)] *)
Definition join_comma (l : list string) : string :=
  String.concat ", " l.

(** A string without a comma, as every seat identifier is. *)
Fixpoint no_comma (s : string) : bool :=
  match s with
  | EmptyString => true
  | String a rest => negb (Ascii.eqb a ",") && no_comma rest
  end.

End PyStr.

(** ** The random source: [random.sample]

    [random.sample(population, k)] is the standard library's: it raises
    [ValueError] unless [0 <= k <= len(population)] and otherwise returns
    [k] elements taken at distinct positions of the population.  The model
    draws position after position from what is left of the population; each
    draw is read from the stream [randbelow] of the generator. *)

Module Random.

Fixpoint draw {A} (randbelow : nat → nat) (pool : list A) (k : nat) : list A :=
  match k with
  | O => []
  | S k' =>
      let j := (randbelow O `mod` length pool)%nat in
      match pool !! j with
      | Some x => x :: draw (λ i, randbelow (S i)) (delete j pool) k'
      | None => []
      end
  end.

Definition sample {A} (randbelow : nat → nat) (population : list A) (k : Z)
  : option (list A) :=
  if decide (0 ≤ k ≤ Z.of_nat (length population))
  then Some (draw randbelow population (Z.to_nat k))
  else None.

End Random.

(** ** Seat universes *)

(** [[f"S{i}" for i in range(lo, hi)]] *)
Definition seat_range (lo hi : nat) : list string :=
  (λ i : nat, "S" +:+ pretty i) <$> seq lo (hi - lo).

(** [all_seats] of the train handlers: [range(1, 101)]. *)
Definition all_seats_train : list string := seat_range 1 101.

(** [all_seats] of [select_bus_seats]: [range(1, 41)]. *)
Definition all_seats_bus : list string := seat_range 1 41.

(** ** Data model *)

(** [decimal.Decimal], [float] and [datetime] with the conversions and
    operations the handlers apply to them, and [int(...)] on strings, are the
    standard library's.  A conversion or product that raises returns
    [None]. *)
Class StdLib := {
  Decimal : Type;
  Float : Type;
  DateTime : Type;
  Decimal_of_str : string → option Decimal;
  Decimal_mul : Decimal → Z → option Decimal;
  Decimal_str : Decimal → string;
  int_of_str : string → option Z;
  float_of_str : string → option Float;
  float_mul : Float → Z → Float;
  float_str : Float → string;
  fromisoformat : string → option DateTime;
  days_between : DateTime → DateTime → Z
}.

Section App.

Context `{Lib : StdLib}.

(** Values held in the dictionaries of the handlers. *)
Inductive value :=
  | VNone
  | VStr (s : string)
  | VInt (n : Z)
  | VDec (d : Decimal)
  | VFloat (f : Float).

(** [str(v)], as an f-string renders a value. *)
Definition py_str (v : value) : string :=
  match v with
  | VNone => "None"
  | VStr s => s
  | VInt n => pretty n
  | VDec d => Decimal_str d
  | VFloat f => float_str f
  end.

(** A dictionary: a booking draft or an item of the table. *)
Local Abbreviation item := (gmap string value).

(** [request.args.get(k)] as a dictionary value. *)
Definition opt_str (o : option string) : value :=
  match o with
  | Some s => VStr s
  | None => VNone
  end.

(** [not d] for a dictionary. *)
Definition dict_empty (d : item) : bool :=
  match map_to_list d with
  | [] => true
  | _ => false
  end.

(** [not s] for a string. *)
Definition str_empty (s : string) : bool :=
  match s with
  | EmptyString => true
  | _ => false
  end.

(** The [bookings] table: primary key [(user_email, booking_date)]. *)
Local Abbreviation table := (gmap (string * string) item).

Record session := mkSession {
  email : option string;
  pending_booking : option item;
  pending_flight_booking : option item;
  pending_hotel_booking : option item
}.

(** Calls that leave the process, in the order they are made. *)
Inductive effect :=
  | PutItem (Item : item)
  | DeleteItem (user_email booking_date : string)
  | Publish (subject message : string).

Record world := mkWorld {
  bookings_table : table;
  sess : session;
  trace : list effect
}.

Record request := mkRequest {
  args : gmap string string;
  form : gmap string string
}.

(** What one request reads from its environment: [uuid.uuid4()],
    [datetime.now().isoformat()] and the generator behind [random]. *)
Record environ := mkEnviron {
  uuid4 : string;
  now_isoformat : string;
  randbelow : nat → nat
}.

Inductive exn :=
  | KeyError (key : string)
  | BadRequestKeyError (key : string)
  | TypeError
  | ValueError
  | InvalidOperation
  | AttributeError
  | ClientError.

Inductive response :=
  | Redirect (endpoint : string)
  | FlashRedirect (message category endpoint : string)
  | Render (template : string) (booking : item)
  | RenderTrainDetails (booking : item) (available_seats : list string)
  | RenderBusSeats (booking : item) (booked_seats : gset string)
      (all_seats : list string)
  | Json (success : bool) (message : string) (status : Z)
  | Raised (e : exn).

(** ** The table *)

(** The primary key of an item; [put_item] is refused without it. *)
Definition item_key (Item : item) : option (string * string) :=
  match Item !! "user_email", Item !! "booking_date" with
  | Some (VStr u), Some (VStr d) => Some (u, d)
  | _, _ => None
  end.

Definition has_str (b : item) (k s : string) : bool :=
  match b !! k with
  | Some (VStr s') => bool_decide (s' = s)
  | _ => false
  end.

(** [bookings_table.query(IndexName='GSI_ItemDate', ...).get('Items', [])]:
    the items whose [item_id] and [travel_date] are the two strings. *)
Definition query_item_date (db : table) (item_id travel_date : string)
  : list item :=
  filter (λ b, has_str b "item_id" item_id && has_str b "travel_date" travel_date)
         (snd <$> map_to_list db).

(** ** Availability *)

(** The loop
    [for b in Items: if 'seats_display' in b:
         booked_seats.update(b['seats_display'].split(', '))];
    [None] when a [seats_display] has no [split] (it is not a string). *)
Fixpoint booked_seats_from (booked_seats : gset string) (Items : list item)
  : option (gset string) :=
  match Items with
  | [] => Some booked_seats
  | b :: rest =>
      match b !! "seats_display" with
      | None => booked_seats_from booked_seats rest
      | Some (VStr s) =>
          booked_seats_from (booked_seats ∪ list_to_set (PyStr.split_comma s)) rest
      | Some _ => None
      end
  end.

Definition booked_seats (Items : list item) : option (gset string) :=
  booked_seats_from ∅ Items.

(** [[seat for seat in all_seats if seat not in booked_seats]] *)
Definition available_seats (all_seats : list string) (booked : gset string)
  : list string :=
  filter (λ seat, seat ∉ booked) all_seats.

(** The query, the loop and the comprehension together, as the train
    handlers run them. *)
Definition computeAvailableSeats (db : table) (item_id travel_date : string)
    (seat_universe : list string) : option (list string) :=
  booked ← booked_seats (query_item_date db item_id travel_date);
  Some (available_seats seat_universe booked).

(** ** Handlers as state transformers with early exit

    A step of a handler either goes on with a value or leaves with the
    response of the request (a [return] in the middle of the function, or an
    exception nobody catches); the world is threaded through both. *)

Definition handler (A : Type) : Type := world → (response + A) * world.

#[export] Instance handler_ret : MRet handler := λ A a w, (inr a, w).

#[export] Instance handler_bind : MBind handler := λ A B f m w,
  match m w with
  | (inl r, w') => (inl r, w')
  | (inr a, w') => f a w'
  end.

Definition exit {A} (r : response) : handler A := λ w, (inl r, w).

Definition raise {A} (e : exn) : handler A := exit (Raised e).

Definition run (m : handler response) (w : world) : response * world :=
  match m w with
  | (inl r, w') => (r, w')
  | (inr r, w') => (r, w')
  end.

(** A value that may be missing, with the exception raised when it is. *)
Definition or_raise {A} (e : exn) (o : option A) : handler A :=
  match o with
  | Some a => mret a
  | None => raise e
  end.

(** [session.get('email')] *)
Definition session_email : handler (option string) :=
  λ w, (inr (email (sess w)), w).

(** [session.pop('pending_booking', None)] *)
Definition pop_pending_booking : handler (option item) := λ w,
  (inr (pending_booking (sess w)),
   mkWorld (bookings_table w)
     (mkSession (email (sess w)) None (pending_flight_booking (sess w))
        (pending_hotel_booking (sess w)))
     (trace w)).

(** [session['pending_booking'] = d] *)
Definition set_pending_booking (d : item) : handler unit := λ w,
  (inr tt,
   mkWorld (bookings_table w)
     (mkSession (email (sess w)) (Some d) (pending_flight_booking (sess w))
        (pending_hotel_booking (sess w)))
     (trace w)).

Definition pop_pending_flight_booking : handler (option item) := λ w,
  (inr (pending_flight_booking (sess w)),
   mkWorld (bookings_table w)
     (mkSession (email (sess w)) (pending_booking (sess w)) None
        (pending_hotel_booking (sess w)))
     (trace w)).

Definition set_pending_flight_booking (d : item) : handler unit := λ w,
  (inr tt,
   mkWorld (bookings_table w)
     (mkSession (email (sess w)) (pending_booking (sess w)) (Some d)
        (pending_hotel_booking (sess w)))
     (trace w)).

Definition pop_pending_hotel_booking : handler (option item) := λ w,
  (inr (pending_hotel_booking (sess w)),
   mkWorld (bookings_table w)
     (mkSession (email (sess w)) (pending_booking (sess w))
        (pending_flight_booking (sess w)) None)
     (trace w)).

Definition set_pending_hotel_booking (d : item) : handler unit := λ w,
  (inr tt,
   mkWorld (bookings_table w)
     (mkSession (email (sess w)) (pending_booking (sess w))
        (pending_flight_booking (sess w)) (Some d))
     (trace w)).

(** [bookings_table.query(...)] on the index; the key condition takes the
    two values of the draft, which the index compares as strings. *)
Definition query (item_id travel_date : value) : handler (list item) :=
  match item_id, travel_date with
  | VStr i, VStr d => λ w, (inr (query_item_date (bookings_table w) i d), w)
  | _, _ => raise ClientError
  end.

(** [bookings_table.put_item(Item=i)]: the item takes the place of whatever
    the table holds under its primary key. *)
Definition put_item (Item : item) : handler unit :=
  match item_key Item with
  | Some k => λ w,
      (inr tt,
       mkWorld (<[k := Item]> (bookings_table w)) (sess w)
         (trace w ++ [PutItem Item]))
  | None => raise ClientError
  end.

(** [bookings_table.delete_item(Key={'user_email': u, 'booking_date': d})] *)
Definition delete_item (user_email booking_date : string) : handler unit :=
  λ w,
    (inr tt,
     mkWorld (delete (user_email, booking_date) (bookings_table w)) (sess w)
       (trace w ++ [DeleteItem user_email booking_date])).

(** [send_sns_notification(subject, message)]: one [publish]; what it
    raises is caught and printed there. *)
Definition send_sns_notification (subject message : string) : handler unit :=
  λ w,
    (inr tt,
     mkWorld (bookings_table w) (sess w) (trace w ++ [Publish subject message])).

(** [d[k]] *)
Definition getitem (d : item) (k : string) : handler value :=
  or_raise (KeyError k) (d !! k).

(** [Decimal(request.args.get(k))] *)
Definition arg_Decimal (req : request) (k : string) : handler Decimal :=
  s ← or_raise TypeError (args req !! k);
  or_raise InvalidOperation (Decimal_of_str s).

(** [int(request.args.get(k))] *)
Definition arg_int (req : request) (k : string) : handler Z :=
  s ← or_raise TypeError (args req !! k);
  or_raise ValueError (int_of_str s).

(** [datetime.fromisoformat(request.args.get(k))] *)
Definition arg_datetime (req : request) (k : string) : handler DateTime :=
  s ← or_raise TypeError (args req !! k);
  or_raise ValueError (fromisoformat s).

(** The loop over the items of a query. *)
Definition collect_booked_seats (Items : list item) : handler (gset string) :=
  or_raise AttributeError (booked_seats Items).

(** [random.sample(population, k)] *)
Definition random_sample (env : environ) (population : list string) (k : Z)
  : handler (list string) :=
  or_raise ValueError (Random.sample (randbelow env) population k).

(** [k] as the right operand of [len(...) < k] and as the size of a
    sample: an [int]. *)
Definition as_int (v : value) : handler Z :=
  match v with
  | VInt n => mret n
  | _ => raise TypeError
  end.

(** ** The train flow *)

Definition nl : string := String "010"%char "".

(** The rupee sign of the notification messages (its three UTF-8 bytes). *)
Definition rupee : string :=
  String "226"%char (String "130"%char (String "185"%char "")).

(** The dictionary literal of [confirm_train_details]. *)
Definition train_booking_details (req : request) (user_email : string)
    (price : Decimal) (persons : Z) (total : Decimal) : item :=
  list_to_map [
    ("name", opt_str (args req !! "name"));
    ("train_number", opt_str (args req !! "trainNumber"));
    ("source", opt_str (args req !! "source"));
    ("destination", opt_str (args req !! "destination"));
    ("departure_time", opt_str (args req !! "departureTime"));
    ("arrival_time", opt_str (args req !! "arrivalTime"));
    ("price_per_person", VDec price);
    ("travel_date", opt_str (args req !! "date"));
    ("num_persons", VInt persons);
    ("item_id", opt_str (args req !! "trainId"));
    ("booking_type", VStr "train");
    ("user_email", VStr user_email);
    ("total_price", VDec total)
  ].

Definition confirm_train_details (req : request) (env : environ)
  : handler response :=
  user ← session_email;
  match user with
  | None => exit (Redirect "login")
  | Some user_email =>
      price ← arg_Decimal req "price";
      persons ← arg_int req "persons";
      total ← or_raise InvalidOperation (Decimal_mul price persons);
      let booking_details :=
        train_booking_details req user_email price persons total in
      item_id ← getitem booking_details "item_id";
      travel_date ← getitem booking_details "travel_date";
      Items ← query item_id travel_date;
      booked ← collect_booked_seats Items;
      let all_seats := all_seats_train in
      let available := available_seats all_seats booked in
      num_persons ← getitem booking_details "num_persons" ≫= as_int;
      if decide (Z.of_nat (length available) < num_persons)
      then exit (FlashRedirect
                   "Not enough seats available for the selected number of persons."
                   "error" "train")
      else
        set_pending_booking booking_details;;
        seats_to_display ←
          random_sample env available
            (Z.min (Z.of_nat (length available)) num_persons);
        mret (RenderTrainDetails booking_details seats_to_display)
  end.

(** The message of the train notification. *)
Definition train_message (train_number source destination travel_date
    seats_display total_price : value) : string :=
  "Train " +:+ py_str train_number +:+ " from " +:+ py_str source +:+
  " to " +:+ py_str destination +:+ " on " +:+ py_str travel_date +:+
  " is confirmed." +:+ nl +:+ "Seats: " +:+ py_str seats_display +:+ nl +:+
  "Total: " +:+ rupee +:+ py_str total_price.

Definition final_confirm_train_booking (req : request) (env : environ)
  : handler response :=
  user ← session_email;
  match user with
  | None => exit (Json false "User not logged in" 401)
  | Some _ =>
      pending ← pop_pending_booking;
      match pending with
      | None => exit (Json false "No pending booking found" 400)
      | Some booking_data =>
          if dict_empty booking_data
          then exit (Json false "No pending booking found" 400)
          else
            item_id ← getitem booking_data "item_id";
            travel_date ← getitem booking_data "travel_date";
            Items ← query item_id travel_date;
            booked ← collect_booked_seats Items;
            let all_seats := all_seats_train in
            let available := available_seats all_seats booked in
            num_persons ← getitem booking_data "num_persons" ≫= as_int;
            if decide (Z.of_nat (length available) < num_persons)
            then exit (Json false
                         "Not enough seats available. Please try again." 400)
            else
              allocated_seats ← random_sample env available num_persons;
              let booking_data :=
                <["seats_display" := VStr (PyStr.join_comma allocated_seats)]>
                  booking_data in
              let booking_data :=
                <["booking_id" := VStr (uuid4 env)]> booking_data in
              let booking_data :=
                <["booking_date" := VStr (now_isoformat env)]> booking_data in
              put_item booking_data;;
              train_number ← getitem booking_data "train_number";
              source ← getitem booking_data "source";
              destination ← getitem booking_data "destination";
              travel_date ← getitem booking_data "travel_date";
              seats_display ← getitem booking_data "seats_display";
              total_price ← getitem booking_data "total_price";
              send_sns_notification "Train Booking Confirmed"
                (train_message train_number source destination travel_date
                   seats_display total_price);;
              mret (Json true "Train booking confirmed successfully!" 200)
      end
  end.

(** ** The bus flow *)

(** The dictionary literal of [confirm_bus_details] and [select_bus_seats]. *)
Definition bus_booking_details (req : request) (user_email : string)
    (price : Decimal) (persons : Z) (total : Decimal) : item :=
  list_to_map [
    ("name", opt_str (args req !! "name"));
    ("source", opt_str (args req !! "source"));
    ("destination", opt_str (args req !! "destination"));
    ("time", opt_str (args req !! "time"));
    ("type", opt_str (args req !! "type"));
    ("price_per_person", VDec price);
    ("travel_date", opt_str (args req !! "date"));
    ("num_persons", VInt persons);
    ("item_id", opt_str (args req !! "busId"));
    ("booking_type", VStr "bus");
    ("user_email", VStr user_email);
    ("total_price", VDec total)
  ].

Definition confirm_bus_details (req : request) (env : environ)
  : handler response :=
  user ← session_email;
  match user with
  | None => exit (Redirect "login")
  | Some user_email =>
      price ← arg_Decimal req "price";
      persons ← arg_int req "persons";
      total ← or_raise InvalidOperation (Decimal_mul price persons);
      let booking_details :=
        bus_booking_details req user_email price persons total in
      set_pending_booking booking_details;;
      mret (Render "confirm_bus_details.html" booking_details)
  end.

Definition select_bus_seats (req : request) (env : environ)
  : handler response :=
  user ← session_email;
  match user with
  | None => exit (Redirect "login")
  | Some user_email =>
      price ← arg_Decimal req "price";
      persons ← arg_int req "persons";
      total ← or_raise InvalidOperation (Decimal_mul price persons);
      let booking := bus_booking_details req user_email price persons total in
      item_id ← getitem booking "item_id";
      travel_date ← getitem booking "travel_date";
      Items ← query item_id travel_date;
      booked ← collect_booked_seats Items;
      let all_seats := all_seats_bus in
      set_pending_booking booking;;
      mret (RenderBusSeats booking booked all_seats)
  end.

(** The message of the bus notification. *)
Definition bus_message (source destination travel_date seats_display
    total_price : value) : string :=
  "Your bus from " +:+ py_str source +:+ " to " +:+ py_str destination +:+
  " on " +:+ py_str travel_date +:+ " is confirmed." +:+ nl +:+
  "Seats: " +:+ py_str seats_display +:+ nl +:+
  "Total: " +:+ rupee +:+ py_str total_price.

(** [any(s in existing_booked_seats for s in selected_seats)] *)
Definition any_booked (existing_booked_seats : gset string)
    (selected_seats : list string) : bool :=
  existsb (λ s, bool_decide (s ∈ existing_booked_seats)) selected_seats.

Definition final_confirm_bus_booking (req : request) (env : environ)
  : handler response :=
  user ← session_email;
  match user with
  | None => exit (Redirect "login")
  | Some _ =>
      pending ← pop_pending_booking;
      let selected_seats_str := form req !! "selected_seats" in
      match pending, selected_seats_str with
      | Some booking, Some selected_seats_str =>
          if dict_empty booking || str_empty selected_seats_str
          then exit (FlashRedirect "Booking failed! Missing data." "error" "bus")
          else
            let selected_seats := PyStr.split_comma selected_seats_str in
            item_id ← getitem booking "item_id";
            travel_date ← getitem booking "travel_date";
            Items ← query item_id travel_date;
            existing_booked_seats ← collect_booked_seats Items;
            if any_booked existing_booked_seats selected_seats
            then exit (FlashRedirect
                         "One or more selected seats are already booked! Please select different seats."
                         "error" "bus")
            else
              let booking :=
                <["seats_display" := VStr selected_seats_str]> booking in
              let booking := <["booking_id" := VStr (uuid4 env)]> booking in
              let booking :=
                <["booking_date" := VStr (now_isoformat env)]> booking in
              put_item booking;;
              source ← getitem booking "source";
              destination ← getitem booking "destination";
              travel_date ← getitem booking "travel_date";
              seats_display ← getitem booking "seats_display";
              total_price ← getitem booking "total_price";
              send_sns_notification "Bus Booking Confirmed"
                (bus_message source destination travel_date seats_display
                   total_price);;
              mret (FlashRedirect "Bus booking confirmed!" "success" "dashboard")
      | _, _ => exit (FlashRedirect "Booking failed! Missing data." "error" "bus")
      end
  end.

(** ** The flight flow *)

(** [request.args[k]] *)
Definition arg_required (req : request) (k : string) : handler string :=
  or_raise (BadRequestKeyError k) (args req !! k).

Definition confirm_flight_details (req : request) (env : environ)
  : handler response :=
  user ← session_email;
  match user with
  | None => exit (Redirect "login")
  | Some _ =>
      flight_id ← arg_required req "flight_id";
      airline ← arg_required req "airline";
      flight_number ← arg_required req "flight_number";
      source ← arg_required req "source";
      destination ← arg_required req "destination";
      departure ← arg_required req "departure";
      arrival ← arg_required req "arrival";
      date ← arg_required req "date";
      passengers ← arg_required req "passengers" ≫=
                     (λ s, or_raise ValueError (int_of_str s));
      price ← arg_required req "price" ≫=
                (λ s, or_raise ValueError (float_of_str s));
      let booking : item :=
        list_to_map [
          ("flight_id", VStr flight_id);
          ("airline", VStr airline);
          ("flight_number", VStr flight_number);
          ("source", VStr source);
          ("destination", VStr destination);
          ("departure_time", VStr departure);
          ("arrival_time", VStr arrival);
          ("travel_date", VStr date);
          ("num_persons", VInt passengers);
          ("price_per_person", VFloat price)
        ] in
      let booking :=
        <["total_price" := VFloat (float_mul price passengers)]> booking in
      set_pending_flight_booking booking;;
      mret (Render "confirm_flight_details.html" booking)
  end.

(** [Decimal(str(v))] *)
Definition Decimal_of_value (v : value) : handler value :=
  d ← or_raise InvalidOperation (Decimal_of_str (py_str v));
  mret (VDec d).

Definition flight_message (travel_date source destination airline
    total_price : value) : string :=
  "Your flight booking on " +:+ py_str travel_date +:+ " from " +:+
  py_str source +:+ " to " +:+ py_str destination +:+ " with " +:+
  py_str airline +:+ " is confirmed." +:+ nl +:+
  "Total: " +:+ rupee +:+ py_str total_price.

Definition confirm_flight_booking (req : request) (env : environ)
  : handler response :=
  user ← session_email;
  match user with
  | None => exit (Redirect "login")
  | Some user_email =>
      pending ← pop_pending_flight_booking;
      match pending with
      | None => exit (FlashRedirect
                        "Flight booking failed! No pending booking found."
                        "error" "flight")
      | Some booking =>
          if dict_empty booking
          then exit (FlashRedirect
                       "Flight booking failed! No pending booking found."
                       "error" "flight")
          else
            let booking := <["booking_type" := VStr "flight"]> booking in
            let booking := <["user_email" := VStr user_email]> booking in
            let booking :=
              <["booking_date" := VStr (now_isoformat env)]> booking in
            let booking := <["booking_id" := VStr (uuid4 env)]> booking in
            price_per_person ←
              getitem booking "price_per_person" ≫= Decimal_of_value;
            let booking := <["price_per_person" := price_per_person]> booking in
            total_price ← getitem booking "total_price" ≫= Decimal_of_value;
            let booking := <["total_price" := total_price]> booking in
            put_item booking;;
            travel_date ← getitem booking "travel_date";
            source ← getitem booking "source";
            destination ← getitem booking "destination";
            airline ← getitem booking "airline";
            total_price ← getitem booking "total_price";
            send_sns_notification "Flight Booking Confirmed"
              (flight_message travel_date source destination airline
                 total_price);;
            mret (FlashRedirect "Flight booking confirmed successfully!"
                    "success" "dashboard")
      end
  end.

(** ** The hotel flow *)

Definition confirm_hotel_details (req : request) (env : environ)
  : handler response :=
  user ← session_email;
  match user with
  | None => exit (Redirect "login")
  | Some _ =>
      rooms ← arg_int req "rooms";
      guests ← arg_int req "guests";
      price ← arg_Decimal req "price";
      rating ← arg_int req "rating";
      let booking : item :=
        list_to_map [
          ("name", opt_str (args req !! "name"));
          ("location", opt_str (args req !! "location"));
          ("checkin_date", opt_str (args req !! "checkin"));
          ("checkout_date", opt_str (args req !! "checkout"));
          ("num_rooms", VInt rooms);
          ("num_guests", VInt guests);
          ("price_per_night", VDec price);
          ("rating", VInt rating)
        ] in
      ci ← arg_datetime req "checkin";
      co ← arg_datetime req "checkout";
      let nights := days_between ci co in
      let booking := <["nights" := VInt nights]> booking in
      per_night ← or_raise InvalidOperation (Decimal_mul price rooms);
      total ← or_raise InvalidOperation (Decimal_mul per_night nights);
      let booking := <["total_price" := VDec total]> booking in
      set_pending_hotel_booking booking;;
      mret (Render "confirm_hotel_details.html" booking)
  end.

Definition hotel_message (name location checkin_date checkout_date
    total_price : value) : string :=
  "Hotel booking at " +:+ py_str name +:+ " in " +:+ py_str location +:+
  " from " +:+ py_str checkin_date +:+ " to " +:+ py_str checkout_date +:+
  " is confirmed." +:+ nl +:+
  "Total: " +:+ rupee +:+ py_str total_price.

Definition confirm_hotel_booking (req : request) (env : environ)
  : handler response :=
  user ← session_email;
  match user with
  | None => exit (Redirect "login")
  | Some user_email =>
      pending ← pop_pending_hotel_booking;
      match pending with
      | None => exit (FlashRedirect
                        "Hotel booking failed! No pending booking found."
                        "error" "hotel")
      | Some booking =>
          if dict_empty booking
          then exit (FlashRedirect
                       "Hotel booking failed! No pending booking found."
                       "error" "hotel")
          else
            let booking := <["booking_type" := VStr "hotel"]> booking in
            let booking := <["user_email" := VStr user_email]> booking in
            let booking :=
              <["booking_date" := VStr (now_isoformat env)]> booking in
            let booking := <["booking_id" := VStr (uuid4 env)]> booking in
            price_per_night ←
              getitem booking "price_per_night" ≫= Decimal_of_value;
            let booking := <["price_per_night" := price_per_night]> booking in
            total_price ← getitem booking "total_price" ≫= Decimal_of_value;
            let booking := <["total_price" := total_price]> booking in
            put_item booking;;
            name ← getitem booking "name";
            location ← getitem booking "location";
            checkin_date ← getitem booking "checkin_date";
            checkout_date ← getitem booking "checkout_date";
            total_price ← getitem booking "total_price";
            send_sns_notification "Hotel Booking Confirmed"
              (hotel_message name location checkin_date checkout_date
                 total_price);;
            mret (FlashRedirect "Hotel booking confirmed successfully!"
                    "success" "dashboard")
      end
  end.

(** ** Cancellation *)

Definition cancel_booking (req : request) (env : environ)
  : handler response :=
  user ← session_email;
  match user with
  | None => exit (Redirect "login")
  | Some user_email =>
      match form req !! "booking_id", form req !! "booking_date" with
      | Some booking_id, Some booking_date =>
          if str_empty booking_id || str_empty booking_date
          then exit (FlashRedirect
                       "Error: Booking ID or Booking Date is missing for cancellation."
                       "error" "dashboard")
          else
            delete_item user_email booking_date;;
            mret (FlashRedirect
                    ("Booking " +:+ booking_id +:+ " cancelled successfully!")
                    "success" "dashboard")
      | _, _ =>
          exit (FlashRedirect
                  "Error: Booking ID or Booking Date is missing for cancellation."
                  "error" "dashboard")
      end
  end.

(** ** The specification's words, and what the table always satisfies *)

(** A seat is taken for [(item_id, travel_date)] when it is one of the
    pieces of the [seats_display] of some item of the table with that
    [item_id] and that [travel_date]. *)
Definition spec_taken (db : table) (item_id travel_date seat : string)
  : Prop :=
  ∃ k b s,
    db !! k = Some b ∧
    b !! "item_id" = Some (VStr item_id) ∧
    b !! "travel_date" = Some (VStr travel_date) ∧
    b !! "seats_display" = Some (VStr s) ∧
    seat ∈ PyStr.split_comma s.

(** The seats one item takes. *)
Definition seats_of (b : item) : gset string :=
  match b !! "seats_display" with
  | Some (VStr s) => list_to_set (PyStr.split_comma s)
  | _ => ∅
  end.

(** The taken set of a query. *)
Definition taken_seats (db : table) (item_id travel_date : string)
  : gset string :=
  ⋃ (seats_of <$> query_item_date db item_id travel_date).

(** The seats an item takes for a given query: its own when it has the two
    index keys, none otherwise. *)
Definition contribution (b : item) (item_id travel_date : string)
  : gset string :=
  if has_str b "item_id" item_id && has_str b "travel_date" travel_date
  then seats_of b
  else ∅.

(** Every [seats_display] of an item is a string. *)
Definition item_typed (b : item) : Prop :=
  ∀ v, b !! "seats_display" = Some v → ∃ s, v = VStr s.

Definition store_typed (db : table) : Prop :=
  ∀ k b, db !! k = Some b → item_typed b.

(** A draft of the train or bus flow, as the dictionary literals of
    [confirm_train_details], [confirm_bus_details] and [select_bus_seats]
    make it. *)
Definition draft_ok (d : item) : Prop :=
  ∃ user price persons total,
    d !! "user_email" = Some (VStr user) ∧
    d !! "price_per_person" = Some (VDec price) ∧
    d !! "num_persons" = Some (VInt persons) ∧
    d !! "total_price" = Some (VDec total) ∧
    Decimal_mul price persons = Some total ∧
    is_Some (d !! "item_id") ∧
    is_Some (d !! "travel_date") ∧
    is_Some (d !! "source") ∧
    is_Some (d !! "destination") ∧
    d !! "seats_display" = None.

(** A draft of the flight flow, as [confirm_flight_details] makes it. *)
Definition flight_draft_ok (d : item) : Prop :=
  (∃ s, d !! "flight_id" = Some (VStr s)) ∧
  d !! "item_id" = None ∧
  d !! "seats_display" = None.

(** A draft of the hotel flow, as [confirm_hotel_details] makes it. *)
Definition hotel_draft_ok (d : item) : Prop :=
  d !! "item_id" = None ∧
  d !! "travel_date" = None ∧
  d !! "seats_display" = None.

Definition session_ok (s : session) : Prop :=
  (∀ d, pending_booking s = Some d → draft_ok d) ∧
  (∀ d, pending_flight_booking s = Some d → flight_draft_ok d) ∧
  (∀ d, pending_hotel_booking s = Some d → hotel_draft_ok d).

Definition world_ok (w : world) : Prop :=
  store_typed (bookings_table w) ∧ session_ok (sess w).

(** The handlers that commit a booking, and all the handlers of the
    booking flows. *)
Inductive finalizer := TrainFinalize | BusFinalize | FlightFinalize | HotelFinalize.

Definition finalize (f : finalizer) : request → environ → handler response :=
  match f with
  | TrainFinalize => final_confirm_train_booking
  | BusFinalize => final_confirm_bus_booking
  | FlightFinalize => confirm_flight_booking
  | HotelFinalize => confirm_hotel_booking
  end.

Inductive route :=
  | ConfirmTrainDetails | ConfirmBusDetails | SelectBusSeats
  | ConfirmFlightDetails | ConfirmHotelDetails
  | Finalize (f : finalizer)
  | CancelBooking.

Definition dispatch (r : route) : request → environ → handler response :=
  match r with
  | ConfirmTrainDetails => confirm_train_details
  | ConfirmBusDetails => confirm_bus_details
  | SelectBusSeats => select_bus_seats
  | ConfirmFlightDetails => confirm_flight_details
  | ConfirmHotelDetails => confirm_hotel_details
  | Finalize f => finalize f
  | CancelBooking => cancel_booking
  end.

(** The worlds the booking handlers reach from an empty table and a
    session with no draft, under whatever login. *)
(** What a request did to the table: nothing, or the [put_item] of one
    item under its key, followed by notifications only. *)
Definition untouched (w w' : world) : Prop :=
  bookings_table w' = bookings_table w ∧ trace w' = trace w.

Definition committed (w w' : world) (Item : item) (k : string * string)
  : Prop :=
  item_key Item = Some k ∧
  bookings_table w' = <[k := Item]> (bookings_table w) ∧
  ∃ notes,
    trace w' = (trace w ++ PutItem Item :: notes)%list ∧
    ∀ e, e ∈ notes → ∃ subject message, e = Publish subject message.

(** The handlers of the "details" and "select seats" pages. *)
Definition display_route (r : route) : Prop :=
  match r with
  | Finalize _ | CancelBooking => False
  | _ => True
  end.

(** [login] and [logout] touch [session['email']] only. *)
Definition set_email (user : option string) (w : world) : world :=
  mkWorld (bookings_table w)
    (mkSession user (pending_booking (sess w))
       (pending_flight_booking (sess w)) (pending_hotel_booking (sess w)))
    (trace w).

(** The worlds the handlers reach from an empty table and a session with
    no draft. *)
Inductive reachable : world → Prop :=
  | reachable_init :
      reachable (mkWorld ∅ (mkSession None None None None) [])
  | reachable_login w user :
      reachable w → reachable (set_email user w)
  | reachable_step w r req env :
      reachable w → reachable (run (dispatch r req env) w).2.

End App.

(** ** More about the booking flows *)

Section Flows.

Context `{Lib : StdLib}.
Local Abbreviation item := (gmap string value).
Local Abbreviation table := (gmap (string * string) item).

(** What a route answers to a visitor who is not logged in. *)
Definition login_required (r : route) : response :=
  match r with
  | Finalize TrainFinalize => Json false "User not logged in" 401
  | _ => Redirect "login"
  end.




(** The items of one item and date hold no seat in common, the empty
    identifier apart (the [seats_display] of a booking for no person splits
    into it). *)
Definition no_shared_seat (db : table) : Prop :=
  ∀ k1 k2 b1 b2 item_id travel_date seat,
    k1 ≠ k2 →
    db !! k1 = Some b1 →
    db !! k2 = Some b2 →
    seat ∈ contribution b1 item_id travel_date →
    seat ∈ contribution b2 item_id travel_date →
    seat = "".

(** The world once [session['pending_booking']] is set, or popped. *)
Definition with_pending_booking (o : option item) (w : world) : world :=
  mkWorld (bookings_table w)
    (mkSession (email (sess w)) o (pending_flight_booking (sess w))
       (pending_hotel_booking (sess w)))
    (trace w).

End Flows.

(** ** An instance for the examples

    Whole numbers stand for both [Decimal] and [float], written in decimal
    digits; a date of a hotel stay is a day number. *)

Module Demo.

Fixpoint digits_go (acc : Z) (s : string) : option Z :=
  match s with
  | EmptyString => Some acc
  | String c rest =>
      let n := nat_of_ascii c in
      if decide (48 ≤ n ≤ 57)%nat
      then digits_go (10 * acc + Z.of_nat (n - 48)) rest
      else None
  end.

Definition digits (s : string) : option Z :=
  match s with
  | EmptyString => None
  | _ => digits_go 0 s
  end.

Definition whole_numbers : StdLib := {|
  Decimal := Z;
  Float := Z;
  Decimal_of_str := digits;
  Decimal_mul := λ d n, Some (d * n);
  Decimal_str := pretty;
  int_of_str := digits;
  float_of_str := digits;
  float_mul := Z.mul;
  float_str := pretty;
  DateTime := Z;
  fromisoformat := digits;
  days_between := λ ci co, co - ci
|}.

#[local] Existing Instance whole_numbers.

Definition alice : string := "alice@example.com".
Definition bob : string := "bob@example.com".

Definition init : world := mkWorld ∅ (mkSession None None None None) [].

Definition mk_env (id now : string) : environ :=
  mkEnviron id now (λ i, (7 * i + 3)%nat).

Definition env1 : environ := mk_env "id-0001" "2024-05-30T10:00:00.000001".
Definition env2 : environ := mk_env "id-0002" "2024-05-30T10:05:00.000002".
Definition env3 : environ := mk_env "id-0003" "2024-05-30T10:10:00.000003".

Definition no_request : request := mkRequest ∅ ∅.

(** A search for train T100 on 2024-06-01. *)
Definition train_request (persons : string) : request :=
  mkRequest
    (list_to_map [
       ("name", "Grand Trunk Express"); ("trainNumber", "12615");
       ("source", "Chennai"); ("destination", "Delhi");
       ("departureTime", "18:50"); ("arrivalTime", "06:30");
       ("price", "250"); ("date", "2024-06-01");
       ("persons", persons); ("trainId", "T100") ])
    ∅.

(** A search for bus B7 on 2024-06-01, and the seats posted for it. *)
Definition bus_request : request :=
  mkRequest
    (list_to_map [
       ("name", "Night Rider"); ("source", "Pune"); ("destination", "Goa");
       ("time", "21:00"); ("type", "AC Sleeper");
       ("price", "120"); ("date", "2024-06-01");
       ("persons", "2"); ("busId", "B7") ])
    ∅.

Definition seats_request (selected_seats : string) : request :=
  mkRequest ∅ {[ "selected_seats" := selected_seats ]}.

Definition flight_request : request :=
  mkRequest
    (list_to_map [
       ("flight_id", "F9"); ("airline", "Air India");
       ("flight_number", "AI101"); ("source", "Mumbai");
       ("destination", "Delhi"); ("departure", "07:00");
       ("arrival", "09:10"); ("date", "2024-06-01");
       ("passengers", "1"); ("price", "4000") ])
    ∅.

Definition cancel_request (booking_id booking_date : string) : request :=
  mkRequest ∅ (list_to_map [ ("booking_id", booking_id);
                             ("booking_date", booking_date) ]).

(** Alice logs in and opens the train page for three persons ... *)
Definition w_alice : world := set_email (Some alice) init.

Definition w_train_details : world :=
  (run (confirm_train_details (train_request "3") env1) w_alice).2.

(** ... and confirms. *)
Definition w_train_booked : world :=
  (run (final_confirm_train_booking no_request env2) w_train_details).2.

(** Alice opens the bus seat page ... *)
Definition w_bus_seats : world :=
  (run (select_bus_seats bus_request env1) w_alice).2.

(** ... and posts seats, one of which no bus has. *)
Definition w_bus_booked : world :=
  (run (final_confirm_bus_booking (seats_request "S3, S41") env2) w_bus_seats).2.

(** Alice has a train draft and a flight draft at once, and both
    confirmations read the same time from the clock. *)
Definition w_two_drafts : world :=
  (run (confirm_flight_details flight_request env1) w_train_details).2.

Definition w_first_commit : world :=
  (run (final_confirm_train_booking no_request env2) w_two_drafts).2.

Definition env_same_time : environ := mk_env "id-0003" (now_isoformat env2).

Definition w_second_commit : world :=
  (run (confirm_flight_booking no_request env_same_time) w_first_commit).2.

(** The flight confirmation at a later time. *)
Definition w_flight_booked : world :=
  (run (confirm_flight_booking no_request env3) w_first_commit).2.

(** Bob takes 95 seats of train T100 while Alice holds a draft for 10. *)
Definition w_bob_booked : world :=
  (run (final_confirm_train_booking no_request env2)
     (run (confirm_train_details (train_request "95") env1)
        (set_email (Some bob) init)).2).2.

Definition w_alice_late : world :=
  mkWorld (bookings_table w_bob_booked)
    (sess (run (confirm_train_details (train_request "10") env1) w_alice).2)
    (trace w_bob_booked).

(** The train draft of Alice, 250 a person, and her bus draft. *)
Definition train_draft (persons : Z) : gmap string value :=
  train_booking_details (train_request (pretty persons)) alice 250 persons
    (250 * persons).

Definition bus_draft : gmap string value :=
  bus_booking_details bus_request alice 120 2 240.

(** A draft stamped by a finalize. *)
Definition stamped (draft : gmap string value) (seats_display : string)
    (env : environ) : gmap string value :=
  <["booking_date" := VStr (now_isoformat env)]>
    (<["booking_id" := VStr (uuid4 env)]>
       (<["seats_display" := VStr seats_display]> draft)).

(** Alice opens the seat page of the same bus again and posts a seat she
    has already booked. *)
Definition w_bus_again : world :=
  (run (select_bus_seats bus_request env3) w_bus_booked).2.

(** Alice cancels her train booking. *)
Definition w_cancelled : world :=
  (run (cancel_booking (cancel_request (uuid4 env2) (now_isoformat env2)) env3)
     w_train_booked).2.

(** A hotel item, which has no [seats_display]. *)
Definition hotel_item : gmap string value :=
  list_to_map [
    ("name", VStr "Sea View"); ("location", VStr "Goa");
    ("booking_type", VStr "hotel"); ("user_email", VStr alice);
    ("booking_date", VStr (now_isoformat env3));
    ("booking_id", VStr (uuid4 env3)) ].

(** An item of train T100 whose [seats_display] is a number, in a table
    that holds nothing else. *)
Definition malformed_item : gmap string value :=
  list_to_map [
    ("item_id", VStr "T100"); ("travel_date", VStr "2024-06-01");
    ("seats_display", VInt 4); ("booking_type", VStr "train");
    ("user_email", VStr bob);
    ("booking_date", VStr "2024-05-29T09:00:00.000000") ].

Definition w_malformed : world :=
  mkWorld {[ (bob, "2024-05-29T09:00:00.000000") := malformed_item ]}
    (sess w_alice) [].

End Demo.

(** The query arguments [confirm_flight_details] reads with
    [request.args[...]], in the order it reads them. *)
Definition flight_args : list string :=
  ["flight_id"; "airline"; "flight_number"; "source"; "destination";
   "departure"; "arrival"; "date"; "passengers"; "price"].

(** ** Accounts, the dashboard and the search pages *)

(** [werkzeug.security]: the hash of a password under a fresh salt, and the
    check of a password against a stored hash. *)
Class Werkzeug := {
  generate_password_hash : string → string → string;
  check_password_hash : string → string → bool
}.

(** [float(...)] on the numbers of an item, [None] when it raises, and
    [0.0]. *)
Class FloatConv `{Lib : StdLib} := {
  float_of_Decimal : Decimal → option Float;
  float_of_int : Z → option Float;
  float_zero : Float
}.

Section Accounts.

Context `{Lib : StdLib} {Conv : FloatConv} {Hash : Werkzeug}.
Local Abbreviation item := (gmap string value).
Local Abbreviation table := (gmap (string * string) item).

Inductive http_method := GET | POST.

(** The [users] table, primary key [email], beside the bookings, the
    session and the calls made so far. *)
Record site := mkSite {
  users_table : gmap string item;
  app : world
}.

(** What the account and page handlers answer: what a booking handler
    answers, or a template with or without a flashed message, or the
    dashboard. *)
Inductive page :=
  | Answer (r : response)
  | Template (template : string)
  | FlashTemplate (message category template : string)
  | DashboardPage (username : string) (bookings : list item).

(** [index] *)
Definition index (s : site) : page * site := (Template "index.html", s).

(** [register]; [salt] is the salt [generate_password_hash] draws. *)
Definition register (method : http_method) (req : request) (salt : string)
    (s : site) : page * site :=
  match method with
  | POST =>
      match form req !! "email" with
      | None => (Answer (Raised (BadRequestKeyError "email")), s)
      | Some email =>
          match form req !! "password" with
          | None => (Answer (Raised (BadRequestKeyError "password")), s)
          | Some password =>
              match users_table s !! email with
              | Some _ =>
                  (FlashTemplate "Email already exists!" "error"
                     "register.html", s)
              | None =>
                  let hashed_password :=
                    generate_password_hash salt password in
                  let Item : item :=
                    <["email" := VStr email]>
                      (<["password" := VStr hashed_password]> ∅) in
                  (Answer (FlashRedirect
                             "Registration successful! Please log in."
                             "success" "login"),
                   mkSite (<[email := Item]> (users_table s)) (app s))
              end
          end
      end
  | GET => (Template "register.html", s)
  end.

(** [login] *)
Definition login (method : http_method) (req : request) (s : site)
  : page * site :=
  match method with
  | POST =>
      match form req !! "email" with
      | None => (Answer (Raised (BadRequestKeyError "email")), s)
      | Some email =>
          match form req !! "password" with
          | None => (Answer (Raised (BadRequestKeyError "password")), s)
          | Some password =>
              let invalid :=
                (FlashTemplate "Invalid email or password!" "error"
                   "login.html", s) in
              match users_table s !! email with
              | Some user =>
                  match user !! "password" with
                  | Some (VStr pwhash) =>
                      if check_password_hash pwhash password
                      then
                        (Answer (FlashRedirect "Logged in successfully!"
                                   "success" "dashboard"),
                         mkSite (users_table s)
                           (set_email (Some email) (app s)))
                      else invalid
                  | Some _ => (Answer (Raised AttributeError), s)
                  | None => (Answer (Raised (KeyError "password")), s)
                  end
              | None => invalid
              end
          end
      end
  | GET => (Template "login.html", s)
  end.

(** [logout] *)
Definition logout (s : site) : page * site :=
  (Answer (FlashRedirect "You have been logged out." "info" "index"),
   mkSite (users_table s) (set_email None (app s))).

(** [bookings_table.query(KeyConditionExpression=Key('user_email').eq(u),
    ScanIndexForward=False)]: the items under the partition key [u], by
    descending sort key [booking_date] (strings compare byte by byte).  The
    handler reads one answer of the table; the model takes it to hold all
    the items of the user. *)
Definition later (x y : (string * string) * item) : Prop :=
  String.leb y.1.2 x.1.2 = true.

#[export] Instance later_dec x y : Decision (later x y) :=
  decide (String.leb y.1.2 x.1.2 = true).

Definition query_user (db : table) (user_email : string)
  : list ((string * string) * item) :=
  merge_sort later (filter (λ kb, kb.1.1 = user_email) (map_to_list db)).

(** [float(v)], [None] when it raises. *)
Definition to_float (v : value) : option Float :=
  match v with
  | VNone => None
  | VStr s => float_of_str s
  | VInt n => float_of_int n
  | VDec d => float_of_Decimal d
  | VFloat f => Some f
  end.

(** The body of the loop of [dashboard] on one booking. *)
Definition price_as_float (booking : item) : item :=
  match booking !! "total_price" with
  | Some v =>
      <["total_price" := VFloat (default float_zero (to_float v))]> booking
  | None => booking
  end.

(** [dashboard] *)
Definition dashboard (s : site) : page * site :=
  match email (sess (app s)) with
  | None => (Answer (Redirect "login"), s)
  | Some user_email =>
      let bookings := snd <$> query_user (bookings_table (app s)) user_email in
      (DashboardPage user_email (price_as_float <$> bookings), s)
  end.

(** [train], [bus], [flight] and [hotel]: a search page behind the login. *)
Definition search_page (template : string) (s : site) : page * site :=
  match email (sess (app s)) with
  | None => (Answer (Redirect "login"), s)
  | Some _ => (Template template, s)
  end.

Definition train : site → page * site := search_page "train.html".
Definition bus : site → page * site := search_page "bus.html".
Definition flight : site → page * site := search_page "flight.html".
Definition hotel : site → page * site := search_page "hotel.html".

(** A request to the site, with what it reads from its environment. *)
Inductive site_request :=
  | Index
  | Register (method : http_method) (req : request) (salt : string)
  | Login (method : http_method) (req : request)
  | Logout
  | Dashboard
  | Train
  | Bus
  | Flight
  | Hotel
  | Booking (r : route) (req : request) (env : environ).

Definition serve (q : site_request) (s : site) : page * site :=
  match q with
  | Index => index s
  | Register method req salt => register method req salt s
  | Login method req => login method req s
  | Logout => logout s
  | Dashboard => dashboard s
  | Train => train s
  | Bus => bus s
  | Flight => flight s
  | Hotel => hotel s
  | Booking r req env =>
      let out := run (dispatch r req env) (app s) in
      (Answer out.1, mkSite (users_table s) out.2)
  end.

(** The sites a sequence of requests leads to, from empty tables and an
    empty session. *)
Inductive site_reachable : site → Prop :=
  | site_reachable_init :
      site_reachable
        (mkSite ∅ (mkWorld ∅ (mkSession None None None None) []))
  | site_reachable_serve s q :
      site_reachable s → site_reachable (serve q s).2.

End Accounts.

(** ** A site for the examples

    Floats are whole numbers as in [Demo]; a password hash is the salt, a
    dollar sign and the password. *)

Module DemoSite.

Import Demo.
#[local] Existing Instance whole_numbers.

Definition whole_floats : @FloatConv whole_numbers := {|
  float_of_Decimal := λ d, Some d;
  float_of_int := λ n, Some n;
  float_zero := 0%Z
|}.

Fixpoint after_dollar (s : string) : option string :=
  match s with
  | EmptyString => None
  | String c rest =>
      if Ascii.eqb c "$" then Some rest else after_dollar rest
  end.

Definition salted : Werkzeug := {|
  generate_password_hash := λ salt password, salt +:+ "$" +:+ password;
  check_password_hash := λ pwhash password,
    bool_decide (after_dollar pwhash = Some password)
|}.

#[local] Existing Instance whole_floats.
#[local] Existing Instance salted.

Definition login_request (user_email password : string) : request :=
  mkRequest ∅ (list_to_map [ ("email", user_email); ("password", password) ]).

Definition empty_site : site := mkSite ∅ init.

(** Alice and Bob register, Alice logs in and opens the train page for
    three persons ... *)
Definition s_registered : site :=
  (serve (Register POST (login_request bob "hunter2") "pepper")
     (serve (Register POST (login_request alice "secret") "salt")
        empty_site).2).2.

Definition s_alice : site :=
  (serve (Login POST (login_request alice "secret")) s_registered).2.

Definition s_alice_draft : site :=
  (serve (Booking ConfirmTrainDetails (train_request "3") env1) s_alice).2.

(** ... logs out, and Bob logs in and posts the confirmation. *)
Definition s_bob_confirms : site :=
  (serve (Booking (Finalize TrainFinalize) no_request env2)
     (serve (Login POST (login_request bob "hunter2"))
        (serve Logout s_alice_draft).2).2).2.

(** Alice books a train and then a flight. *)
Definition s_two_bookings : site :=
  mkSite (users_table s_registered) w_flight_booked.

(** Numbers with a sign, for a request that asks for a negative number of
    persons. *)
Definition signed (s : string) : option Z :=
  match s with
  | String "-" rest => Z.opp <$> digits rest
  | _ => digits s
  end.

Definition signed_numbers : StdLib := {|
  Decimal := Z;
  Float := Z;
  Decimal_of_str := digits;
  Decimal_mul := λ d n, Some (d * n);
  Decimal_str := pretty;
  int_of_str := signed;
  float_of_str := digits;
  float_mul := Z.mul;
  float_str := pretty;
  DateTime := Z;
  fromisoformat := digits;
  days_between := λ ci co, co - ci
|}.


Definition w_alice_signed : @world signed_numbers :=
  mkWorld ∅ (mkSession (Some alice) None None None) [].



(** The flight search without its price. *)
Definition flight_request_no_price : request :=
  mkRequest (delete "price" (args flight_request)) ∅.


End DemoSite.

(** * Properties *)

Example split_three : PyStr.split_comma "S1, S2, S30" = ["S1"; "S2"; "S30"].
Proof. reflexivity. Qed.

Example split_empty : PyStr.split_comma "" = [""].
Proof. reflexivity. Qed.

Example split_no_space : PyStr.split_comma "S1,S2" = ["S1,S2"].
Proof. reflexivity. Qed.

Example split_trailing : PyStr.split_comma "S1, " = ["S1"; ""].
Proof. reflexivity. Qed.

Example join_three : PyStr.join_comma ["S1"; "S2"; "S30"] = "S1, S2, S30".
Proof. reflexivity. Qed.

Example sample_two : Random.sample (λ i, 4%nat) ["a"; "b"; "c"] 2 = Some ["b"; "a"].
Proof. reflexivity. Qed.

Example sample_too_many : Random.sample (λ i, O) ["a"; "b"] 3 = None.
Proof. reflexivity. Qed.

Example sample_negative : Random.sample (λ i, O) ["a"; "b"] (-1) = None.
Proof. reflexivity. Qed.

Example all_seats_train_length : length all_seats_train = 100%nat.
Proof. reflexivity. Qed.

Example all_seats_bus_ends :
  head all_seats_bus = Some "S1" ∧ last all_seats_bus = Some "S40".
Proof. vm_compute. done. Qed.

(** ** Strings: splitting a join *)

#[local] Arguments String.append !_ _ / : simpl nomatch.

Lemma append_cons_assoc (cur : string) a rest :
  (cur +:+ String a "") +:+ rest = cur +:+ String a rest.
Proof. induction cur as [|c cur IH]; simpl; [done|]. by rewrite IH. Qed.

Lemma no_comma_cons a rest :
  PyStr.no_comma (String a rest) = true →
  a ≠ ","%char ∧ PyStr.no_comma rest = true.
Proof.
  simpl. intros [Ha Hr]%andb_true_iff. split; [|done].
  intros ->. by rewrite Ascii.eqb_refl in Ha.
Qed.

Lemma split2_go_step cur a t :
  a ≠ ","%char → t ≠ "" →
  PyStr.split2_go "," " " cur (String a t) =
  PyStr.split2_go "," " " (cur +:+ String a "") t.
Proof.
  intros Ha Ht. destruct t as [|b t']; [done|].
  cbn [PyStr.split2_go]. by rewrite decide_False by (intros [? _]; done).
Qed.

Lemma append_empty_r (s : string) : s +:+ "" = s.
Proof. induction s; simpl; congruence. Qed.

Lemma split2_go_no_comma cur s :
  PyStr.no_comma s = true → PyStr.split2_go "," " " cur s = [cur +:+ s].
Proof.
  revert cur. induction s as [|a rest IH]; intros cur Hs.
  - simpl. by rewrite append_empty_r.
  - apply no_comma_cons in Hs as [Ha Hr].
    destruct rest as [|b rest']; [done|].
    rewrite split2_go_step, IH by done. by rewrite append_cons_assoc.
Qed.

Lemma split2_go_sep cur s rest :
  PyStr.no_comma s = true →
  PyStr.split2_go "," " " cur (s +:+ ", " +:+ rest) =
  (cur +:+ s) :: PyStr.split2_go "," " " "" rest.
Proof.
  revert cur. induction s as [|a s' IH]; intros cur Hs.
  - simpl. by rewrite append_empty_r.
  - apply no_comma_cons in Hs as [Ha Hr].
    change (String a s' +:+ ", " +:+ rest)
      with (String a (s' +:+ ", " +:+ rest)).
    rewrite split2_go_step, IH, append_cons_assoc; try done.
    by destruct s'.
Qed.

(** Splitting the join of seats without commas gives the seats back. *)
Lemma split_join_comma (l : list string) :
  l ≠ [] → Forall (λ s, PyStr.no_comma s = true) l →
  PyStr.split_comma (PyStr.join_comma l) = l.
Proof.
  intros Hne Hl. unfold PyStr.split_comma, PyStr.join_comma.
  induction Hl as [|x l Hx Hl IH]; [done|].
  destruct l as [|y l].
  - simpl. by rewrite split2_go_no_comma.
  - change (String.concat ", " (x :: y :: l))
      with (x +:+ ", " +:+ String.concat ", " (y :: l)).
    rewrite split2_go_sep by done. simpl. f_equal. by apply IH.
Qed.

Lemma all_seats_train_no_comma :
  Forall (λ s, PyStr.no_comma s = true) all_seats_train.
Proof. apply (bool_decide_unpack _). by vm_compute. Qed.

(** ** The random source *)

Section RandomFacts.

Context {A : Type}.
Implicit Types (pool : list A) (rb : nat → nat).

Lemma draw_length rb pool k :
  (k ≤ length pool)%nat → length (Random.draw rb pool k) = k.
Proof.
  revert rb pool. induction k as [|k IH]; intros rb pool Hk; [done|].
  simpl. destruct pool as [|a pool']; [simpl in Hk; lia|].
  set (j := (rb O `mod` length (a :: pool'))%nat).
  assert (Hj : (j < length (a :: pool'))%nat)
    by (apply Nat.mod_upper_bound; simpl; lia).
  destruct (lookup_lt_is_Some_2 _ _ Hj) as [x Hx]. rewrite Hx. simpl.
  f_equal. apply IH. rewrite length_delete by eauto. simpl in *. lia.
Qed.

Lemma draw_subseteq rb pool k : Random.draw rb pool k ⊆ pool.
Proof.
  revert rb pool. induction k as [|k IH]; intros rb pool x Hx; simpl in Hx.
  - by apply elem_of_nil in Hx.
  - destruct (pool !! _) as [y|] eqn:Hy; [|by apply elem_of_nil in Hx].
    apply elem_of_cons in Hx as [->|Hx].
    + by eapply list_elem_of_lookup_2.
    + apply IH in Hx. by eapply list_elem_of_delete_inv.
Qed.

Lemma draw_NoDup rb pool k : NoDup pool → NoDup (Random.draw rb pool k).
Proof.
  revert rb pool. induction k as [|k IH]; intros rb pool Hnd; simpl.
  - constructor.
  - destruct (pool !! _) as [y|] eqn:Hy; [|constructor].
    constructor.
    + intros Hin. apply draw_subseteq in Hin.
      rewrite delete_take_drop in Hin.
      rewrite <- (take_drop_middle _ _ _ Hy) in Hnd.
      apply NoDup_app in Hnd as (_ & Hdisj & Hnd).
      apply NoDup_cons in Hnd as [Hnotin _].
      apply elem_of_app in Hin as [Hin|Hin]; [|done].
      apply (Hdisj _ Hin). left.
    + apply IH. eapply sublist_NoDup; [|apply sublist_delete]. done.
Qed.

(** What [random.sample] returns: [k] elements of the population, and
    distinct ones when the population has no duplicates. *)
Lemma sample_spec rb (population : list A) k l :
  Random.sample rb population k = Some l →
  0 ≤ k ≤ Z.of_nat (length population) ∧
  Z.of_nat (length l) = k ∧ l ⊆ population ∧
  (NoDup population → NoDup l).
Proof.
  unfold Random.sample. case_decide as Hk; [|done]. intros [= <-].
  split; [done|]. split.
  - rewrite draw_length by lia. lia.
  - split; [apply draw_subseteq | apply draw_NoDup].
Qed.

Lemma sample_is_Some rb (population : list A) k :
  0 ≤ k ≤ Z.of_nat (length population) →
  is_Some (Random.sample rb population k).
Proof. intros Hk. unfold Random.sample. rewrite decide_True by done. eauto. Qed.

End RandomFacts.

(** ** Availability *)

Section Availability.

Context `{Lib : StdLib}.
Local Abbreviation item := (gmap string value).
Local Abbreviation table := (gmap (string * string) item).
Implicit Types (db : table) (b : item) (Items : list item).

Lemma has_str_true b k s : has_str b k s = true ↔ b !! k = Some (VStr s).
Proof.
  unfold has_str. destruct (b !! k) as [[]|]; try (split; congruence).
  rewrite bool_decide_eq_true. split; congruence.
Qed.

(** The items a query returns are the items of the table with the two
    index keys. *)
Lemma elem_of_query db i d b :
  b ∈ query_item_date db i d ↔
  ∃ k, db !! k = Some b ∧
       b !! "item_id" = Some (VStr i) ∧ b !! "travel_date" = Some (VStr d).
Proof.
  unfold query_item_date. rewrite list_elem_of_filter, list_elem_of_fmap.
  rewrite andb_True, !Is_true_true, !has_str_true. split.
  - intros [[Hi Hd] [[k b'] [-> Hin]]]. apply elem_of_map_to_list in Hin. eauto.
  - intros (k & Hk & Hi & Hd). split; [done|].
    exists (k, b). split; [done|]. by apply elem_of_map_to_list.
Qed.

Lemma elem_of_seats_of b seat :
  seat ∈ seats_of b ↔
  ∃ s, b !! "seats_display" = Some (VStr s) ∧ seat ∈ PyStr.split_comma s.
Proof.
  unfold seats_of. destruct (b !! "seats_display") as [[]|];
    try (split; [set_solver | intros (? & ? & ?); congruence]).
  rewrite elem_of_list_to_set. split; [eauto|]. by intros (? & [= <-] & ?).
Qed.

(** The loop adds the seats of each item to the set it started from. *)
Lemma booked_seats_from_typed acc Items :
  Forall item_typed Items →
  booked_seats_from acc Items = Some (acc ∪ ⋃ (seats_of <$> Items)).
Proof.
  intros Hty. revert acc. induction Hty as [|b rest Hb Hrest IH]; intros acc; simpl.
  - f_equal. set_solver.
  - unfold seats_of at 1.
    destruct (b !! "seats_display") as [v|] eqn:Hv.
    + destruct (Hb v Hv) as [s ->]. rewrite IH. f_equal. set_solver.
    + rewrite IH. f_equal. set_solver.
Qed.

Lemma booked_seats_typed Items :
  Forall item_typed Items →
  booked_seats Items = Some (⋃ (seats_of <$> Items)).
Proof.
  intros Hty. unfold booked_seats. rewrite booked_seats_from_typed by done.
  f_equal. set_solver.
Qed.

Lemma query_typed db i d :
  store_typed db → Forall item_typed (query_item_date db i d).
Proof.
  intros Hdb. apply Forall_forall. intros b (k & Hk & _)%elem_of_query.
  by eapply Hdb.
Qed.

(** On a typed table the loop returns the taken set of the query. *)
Lemma booked_seats_query db i d :
  store_typed db →
  booked_seats (query_item_date db i d) = Some (taken_seats db i d).
Proof. intros Hdb. by apply booked_seats_typed, query_typed. Qed.

(** The taken set is the set the specification describes. *)
Lemma elem_of_taken_seats db i d seat :
  seat ∈ taken_seats db i d ↔ spec_taken db i d seat.
Proof.
  unfold taken_seats, spec_taken. rewrite elem_of_union_list. split.
  - intros (X & HX & Hseat). apply list_elem_of_fmap in HX as (b & -> & Hb).
    apply elem_of_query in Hb as (k & Hk & Hi & Hd).
    apply elem_of_seats_of in Hseat as (s & Hs & Hseat).
    by exists k, b, s.
  - intros (k & b & s & Hk & Hi & Hd & Hs & Hseat).
    exists (seats_of b). split.
    + apply list_elem_of_fmap. exists b. split; [done|].
      apply elem_of_query. eauto.
    + apply elem_of_seats_of. eauto.
Qed.

Lemma computeAvailableSeats_typed db i d universe :
  store_typed db →
  computeAvailableSeats db i d universe =
    Some (available_seats universe (taken_seats db i d)).
Proof.
  intros Hdb. unfold computeAvailableSeats. by rewrite booked_seats_query.
Qed.

Lemma elem_of_available_seats universe booked seat :
  seat ∈ available_seats universe booked ↔ seat ∈ universe ∧ seat ∉ booked.
Proof. unfold available_seats. rewrite list_elem_of_filter. tauto. Qed.

End Availability.

(** ** Case analysis along a handler *)

Ltac hunfold :=
  unfold run, arg_Decimal, arg_int, arg_datetime, arg_required,
    Decimal_of_value, getitem,
    collect_booked_seats, random_sample, as_int, query, put_item, delete_item,
    send_sns_notification, session_email,
    pop_pending_booking, set_pending_booking,
    pop_pending_flight_booking, set_pending_flight_booking,
    pop_pending_hotel_booking, set_pending_hotel_booking,
    or_raise, raise, exit, mbind, handler_bind, mret, handler_ret;
  cbn [fst snd bookings_table sess trace email pending_booking
       pending_flight_booking pending_hotel_booking
       uuid4 now_isoformat randbelow args form].

(** Case on the innermost scrutinee of the goal. *)
Ltac hmatch :=
  match goal with
  | |- context [match ?x with _ => _ end] =>
      lazymatch x with
      | context [match _ with _ => _ end] => fail
      | decide ?P => destruct (decide P)
      | _ => destruct x eqn:?
      end
  end.

Ltac hcases := repeat (hunfold; hmatch); hunfold.

(** Lookups in a dictionary after assignments to other or the same key. *)
Ltac dict_lookups :=
  repeat first
    [ rewrite lookup_insert_eq
    | rewrite lookup_insert_ne by done ].

(** ** Items, keys and the typing of the table *)

Section Items.

Context `{Lib : StdLib}.
Local Abbreviation item := (gmap string value).
Local Abbreviation table := (gmap (string * string) item).
Implicit Types (w : world) (d b : item) (db : table).

(** A dictionary with a key is not empty. *)
Lemma dict_empty_false d k v : d !! k = Some v → dict_empty d = false.
Proof.
  intros Hk. unfold dict_empty.
  destruct (map_to_list d) eqn:Hl; [|done].
  apply map_to_list_empty_iff in Hl. subst. by rewrite lookup_empty in Hk.
Qed.

Lemma item_key_Some d k :
  item_key d = Some k ↔
  d !! "user_email" = Some (VStr k.1) ∧ d !! "booking_date" = Some (VStr k.2).
Proof.
  unfold item_key. destruct k as [u t]. simpl.
  destruct (d !! "user_email") as [[]|], (d !! "booking_date") as [[]|];
    split; try done; try (intros [??]; done).
  - by intros [= -> ->].
  - by intros [[= ->] [= ->]].
Qed.


Lemma item_typed_seats d s : item_typed (<["seats_display" := VStr s]> d).
Proof. intros v. rewrite lookup_insert_eq. intros [= <-]. eauto. Qed.

Lemma item_typed_no_seats d : d !! "seats_display" = None → item_typed d.
Proof. intros Hd v. by rewrite Hd. Qed.

Lemma item_typed_insert_ne d k v :
  k ≠ "seats_display" → item_typed d → item_typed (<[k := v]> d).
Proof. intros Hk Hd v'. rewrite lookup_insert_ne by done. apply Hd. Qed.

Lemma store_typed_empty : store_typed (∅ : table).
Proof. intros k b. by rewrite lookup_empty. Qed.

Lemma store_typed_insert db k b :
  store_typed db → item_typed b → store_typed (<[k := b]> db).
Proof.
  intros Hdb Hb k' b'. rewrite lookup_insert. case_decide.
  - by intros [= <-].
  - apply Hdb.
Qed.

Lemma store_typed_delete db k : store_typed db → store_typed (delete k db).
Proof.
  intros Hdb k' b'. rewrite lookup_delete. case_decide; [done|]. apply Hdb.
Qed.

End Items.

(** ** What every reachable world satisfies *)

Section Invariant.

Context `{Lib : StdLib}.
Local Abbreviation item := (gmap string value).
Local Abbreviation table := (gmap (string * string) item).
Implicit Types (w : world) (d b : item) (db : table).

Lemma train_details_draft_ok req u p n t :
  Decimal_mul p n = Some t → draft_ok (train_booking_details req u p n t).
Proof. intros Ht. exists u, p, n, t. repeat split; done. Qed.

Lemma bus_details_draft_ok req u p n t :
  Decimal_mul p n = Some t → draft_ok (bus_booking_details req u p n t).
Proof. intros Ht. exists u, p, n, t. repeat split; done. Qed.

Lemma world_ok_intro db s tr :
  store_typed db →
  (∀ d, pending_booking s = Some d → draft_ok d) →
  (∀ d, pending_flight_booking s = Some d → flight_draft_ok d) →
  (∀ d, pending_hotel_booking s = Some d → hotel_draft_ok d) →
  world_ok (mkWorld db s tr).
Proof. intros Hdb Hp Hf Hh. split; [done|]. by split_and!. Qed.

Lemma world_ok_init : world_ok (mkWorld ∅ (mkSession None None None None) []).
Proof. apply world_ok_intro; [apply store_typed_empty|done..]. Qed.

Lemma world_ok_login w user : world_ok w → world_ok (set_email user w).
Proof. intros [Hdb (Hp & Hf & Hh)]. by apply world_ok_intro. Qed.

Ltac inv_close Hdb Hp Hf Hh :=
  cbn [snd]; first
  [ assumption | by apply world_ok_intro
  | apply world_ok_intro; cbn [pending_booking pending_flight_booking pending_hotel_booking];
    [ first [ done | apply store_typed_delete; done | apply store_typed_insert; [done|] ]
    | first [ done | intros ? [= <-] ] ..] ].

(** Each handler keeps the table typed and the drafts in shape. *)
Lemma world_ok_step r req env w :
  world_ok w → world_ok (run (dispatch r req env) w).2.
Proof.
  intros Hw. pose proof Hw as [Hdb (Hp & Hf & Hh)].
  destruct r as [| | | | |[]|]; simpl.
  - unfold confirm_train_details. hcases; inv_close Hdb Hp Hf Hh.
    all: try by apply train_details_draft_ok.
  - unfold confirm_bus_details. hcases; inv_close Hdb Hp Hf Hh.
    all: try by apply bus_details_draft_ok.
  - unfold select_bus_seats. hcases; inv_close Hdb Hp Hf Hh.
    all: try by apply bus_details_draft_ok.
  - unfold confirm_flight_details. hcases; inv_close Hdb Hp Hf Hh.
    all: try (repeat split; eauto; done).
  - unfold confirm_hotel_details. hcases; inv_close Hdb Hp Hf Hh.
    all: try (repeat split; eauto; done).
  - unfold final_confirm_train_booking. hcases; inv_close Hdb Hp Hf Hh.
    all: try (do 2 (apply item_typed_insert_ne; [done|]); apply item_typed_seats).
  - unfold final_confirm_bus_booking. hcases; inv_close Hdb Hp Hf Hh.
    all: try (do 2 (apply item_typed_insert_ne; [done|]); apply item_typed_seats).
  - unfold confirm_flight_booking. hcases; inv_close Hdb Hp Hf Hh.
    all: try (repeat (apply item_typed_insert_ne; [done|]); apply item_typed_no_seats; eapply Hf; eauto).
  - unfold confirm_hotel_booking. hcases; inv_close Hdb Hp Hf Hh.
    all: try (repeat (apply item_typed_insert_ne; [done|]); apply item_typed_no_seats; eapply Hh; eauto).
  - unfold cancel_booking. hcases; inv_close Hdb Hp Hf Hh.
Qed.

Lemma reachable_world_ok w : reachable w → world_ok w.
Proof.
  induction 1 as [|w user _ IH|w r req env _ IH].
  - apply world_ok_init.
  - by apply world_ok_login.
  - by apply world_ok_step.
Qed.

End Invariant.

(** ** Handlers that only read the table *)

Section ReadOnly.

Context `{Lib : StdLib}.
Local Abbreviation item := (gmap string value).
Local Abbreviation table := (gmap (string * string) item).
Implicit Types (w : world).

Lemma display_route_read_only r req env w :
  display_route r →
  bookings_table (run (dispatch r req env) w).2 = bookings_table w ∧
  trace (run (dispatch r req env) w).2 = trace w.
Proof.
  destruct r; try done; intros _; simpl.
  - unfold confirm_train_details. hcases; done.
  - unfold confirm_bus_details. hcases; done.
  - unfold select_bus_seats. hcases; done.
  - unfold confirm_flight_details. hcases; done.
  - unfold confirm_hotel_details. hcases; done.
Qed.

(** No handler of the booking flows changes who is logged in. *)
Lemma dispatch_email r req env w :
  email (sess (run (dispatch r req env) w).2) = email (sess w).
Proof.
  destruct r as [| | | | |[]|]; simpl.
  - unfold confirm_train_details. hcases; done.
  - unfold confirm_bus_details. hcases; done.
  - unfold select_bus_seats. hcases; done.
  - unfold confirm_flight_details. hcases; done.
  - unfold confirm_hotel_details. hcases; done.
  - unfold final_confirm_train_booking. hcases; done.
  - unfold final_confirm_bus_booking. hcases; done.
  - unfold confirm_flight_booking. hcases; done.
  - unfold confirm_hotel_booking. hcases; done.
  - unfold cancel_booking. hcases; done.
Qed.

(** What the seat pages answer depends on the world through the login and
    the table only. *)
Lemma select_bus_seats_response req env w w' :
  email (sess w) = email (sess w') →
  bookings_table w = bookings_table w' →
  (run (select_bus_seats req env) w).1 = (run (select_bus_seats req env) w').1.
Proof.
  destruct w as [db [e p pf ph] tr], w' as [db' [e' p' pf' ph'] tr'].
  simpl. intros <- <-. unfold select_bus_seats. hcases; done.
Qed.

Lemma confirm_train_details_response req env env' w w' :
  randbelow env = randbelow env' →
  email (sess w) = email (sess w') →
  bookings_table w = bookings_table w' →
  (run (confirm_train_details req env) w).1 =
  (run (confirm_train_details req env') w').1.
Proof.
  destruct w as [db [e p pf ph] tr], w' as [db' [e' p' pf' ph'] tr'].
  destruct env as [u n rb], env' as [u' n' rb'].
  simpl. intros <- <- <-. unfold confirm_train_details. hcases; done.
Qed.

End ReadOnly.

(** ** How one item changes the taken set *)

Section Frame.

Context `{Lib : StdLib}.
Local Abbreviation item := (gmap string value).
Local Abbreviation table := (gmap (string * string) item).
Implicit Types (w : world) (d b : item) (db : table).

Lemma elem_of_contribution b i t seat :
  seat ∈ contribution b i t ↔
  b !! "item_id" = Some (VStr i) ∧ b !! "travel_date" = Some (VStr t) ∧
  ∃ s, b !! "seats_display" = Some (VStr s) ∧ seat ∈ PyStr.split_comma s.
Proof.
  unfold contribution.
  destruct (has_str b "item_id" i) eqn:Hi; simpl.
  - destruct (has_str b "travel_date" t) eqn:Ht.
    + apply has_str_true in Hi, Ht. rewrite elem_of_seats_of. naive_solver.
    + split; [set_solver|]. intros (_ & Ht' & _).
      apply has_str_true in Ht'. congruence.
  - split; [set_solver|]. intros (Hi' & _).
    apply has_str_true in Hi'. congruence.
Qed.

Lemma taken_seats_insert db k b i t :
  taken_seats (<[k := b]> db) i t =
  taken_seats (delete k db) i t ∪ contribution b i t.
Proof.
  apply set_eq. intros seat.
  rewrite elem_of_union, !elem_of_taken_seats, elem_of_contribution.
  unfold spec_taken. split.
  - intros (k' & b' & s & Hk' & Hi & Ht & Hs & Hseat).
    rewrite lookup_insert in Hk'. case_decide as Hkk.
    + injection Hk' as <-. right. eauto.
    + left. exists k', b', s. by rewrite lookup_delete_ne.
  - intros [(k' & b' & s & Hk' & Hi & Ht & Hs & Hseat)
           |(Hi & Ht & s & Hs & Hseat)].
    + rewrite lookup_delete in Hk'. case_decide as Hkk; [done|].
      exists k', b', s. by rewrite lookup_insert_ne.
    + exists k, b, s. by rewrite lookup_insert_eq.
Qed.


Lemma contribution_no_seats b i t :
  b !! "seats_display" = None → contribution b i t = ∅.
Proof.
  intros Hb. apply set_eq. intros seat. rewrite elem_of_contribution.
  split; [|set_solver]. intros (_ & _ & s & Hs & _). congruence.
Qed.

Lemma contribution_no_item_id b i t :
  b !! "item_id" = None → contribution b i t = ∅.
Proof.
  intros Hb. apply set_eq. intros seat. rewrite elem_of_contribution.
  split; [|set_solver]. intros (Hi & _). congruence.
Qed.

End Frame.

(** ** Availability: the claims *)

Section AvailabilityClaims.

Context `{Lib : StdLib}.
Local Abbreviation item := (gmap string value).
Local Abbreviation table := (gmap (string * string) item).
Implicit Types (w : world) (d b : item) (db : table).


(** C5, as the code has it.  On a typed table the availability computation
    returns a list that is disjoint from the taken set and that, together
    with the taken seats of the universe, makes up the universe.  (The taken
    set itself may hold identifiers that are not seats of the universe.) *)
Theorem availability_partition db item_id travel_date seat_universe :
  store_typed db →
  ∃ (available : list string) (taken : gset string),
    computeAvailableSeats db item_id travel_date seat_universe = Some available ∧
    (∀ seat, seat ∈ taken ↔ spec_taken db item_id travel_date seat) ∧
    list_to_set available ∪ (taken ∩ list_to_set seat_universe)
      = (list_to_set seat_universe : gset string) ∧
    list_to_set available ∩ taken = (∅ : gset string).
Proof.
  intros Hdb.
  exists (available_seats seat_universe (taken_seats db item_id travel_date)),
         (taken_seats db item_id travel_date).
  split; [by apply computeAvailableSeats_typed|].
  split; [intros seat; apply elem_of_taken_seats|].
  split; apply set_eq; intros seat.
  - rewrite elem_of_union, elem_of_intersection, !elem_of_list_to_set,
      elem_of_available_seats.
    destruct (decide (seat ∈ taken_seats db item_id travel_date)); tauto.
  - rewrite elem_of_intersection, elem_of_list_to_set, elem_of_available_seats.
    set_solver.
Qed.

(** C6.  Showing the seat page twice in a row gives the same answer both
    times, and after it the availability computation returns what it
    returned before, for every query: the page reads the table and leaves
    it as it was.  (The train page shows a random sample of the available
    seats; its two answers agree when the two samples are drawn alike.) *)
Theorem availability_idempotent req env env' w :
  let w1 := (run (select_bus_seats req env) w).2 in
  let w2 := (run (confirm_train_details req env) w).2 in
  (run (select_bus_seats req env') w1).1 = (run (select_bus_seats req env) w).1 ∧
  (randbelow env' = randbelow env →
   (run (confirm_train_details req env') w2).1 =
   (run (confirm_train_details req env) w).1) ∧
  bookings_table w1 = bookings_table w ∧
  bookings_table w2 = bookings_table w ∧
  ∀ item_id travel_date seat_universe,
    computeAvailableSeats (bookings_table w1) item_id travel_date seat_universe =
    computeAvailableSeats (bookings_table w) item_id travel_date seat_universe ∧
    computeAvailableSeats (bookings_table w2) item_id travel_date seat_universe =
    computeAvailableSeats (bookings_table w) item_id travel_date seat_universe.
Proof.
  intros w1 w2.
  destruct (display_route_read_only SelectBusSeats req env w I) as [Hdb1 _].
  destruct (display_route_read_only ConfirmTrainDetails req env w I) as [Hdb2 _].
  pose proof (dispatch_email SelectBusSeats req env w) as He1.
  pose proof (dispatch_email ConfirmTrainDetails req env w) as He2.
  simpl in Hdb1, Hdb2, He1, He2. fold w1 in Hdb1, He1. fold w2 in Hdb2, He2.
  split_and!; try done.
  - rewrite (select_bus_seats_response req env' w1 w) by done.
    destruct w as [db [e p pf ph] tr], env as [u n rb], env' as [u' n' rb'].
    unfold select_bus_seats. hcases; done.
  - intros Hrb. by apply confirm_train_details_response.
  - intros i t U. by rewrite Hdb1, Hdb2.
Qed.

(** C7, as the code has it.  An item without [seats_display] is skipped by
    the loop, and the availability computed on a table that holds such an
    item is the one computed without it; the computation returns a result
    whenever every [seats_display] of the table is a string ([split] is
    defined on every string). *)
Theorem missing_seats_display_skipped db k b item_id travel_date seat_universe :
  store_typed db →
  b !! "seats_display" = None →
  (∀ Items, booked_seats (b :: Items) = booked_seats Items) ∧
  computeAvailableSeats (<[k := b]> db) item_id travel_date seat_universe =
    computeAvailableSeats (delete k db) item_id travel_date seat_universe ∧
  is_Some (computeAvailableSeats (<[k := b]> db) item_id travel_date
             seat_universe).
Proof.
  intros Hdb Hb.
  assert (Hins : store_typed (<[k := b]> db))
    by (apply store_typed_insert; [done|by apply item_typed_no_seats]).
  split_and!.
  - intros Items. unfold booked_seats. simpl. by rewrite Hb.
  - rewrite !computeAvailableSeats_typed
      by (done || by apply store_typed_delete).
    by rewrite taken_seats_insert, contribution_no_seats, union_empty_r_L.
  - rewrite computeAvailableSeats_typed by done. eauto.
Qed.

End AvailabilityClaims.

(** ** The train flow: finalize *)

Lemma all_seats_train_NoDup : NoDup all_seats_train.
Proof. apply (bool_decide_unpack _). by vm_compute. Qed.

Section TrainClaims.

Context `{Lib : StdLib}.
Local Abbreviation item := (gmap string value).
Local Abbreviation table := (gmap (string * string) item).
Implicit Types (w : world) (d b : item) (db : table).

Lemma available_seats_NoDup universe booked :
  NoDup universe → NoDup (available_seats universe booked).
Proof. apply NoDup_filter. Qed.

Lemma computeAvailableSeats_Some db i t universe available :
  computeAvailableSeats db i t universe = Some available →
  ∃ booked,
    booked_seats (query_item_date db i t) = Some booked ∧
    available = available_seats universe booked.
Proof.
  unfold computeAvailableSeats.
  destruct (booked_seats _) as [booked|]; [|done]. intros [= <-]. eauto.
Qed.

(** C3.  When the train finalize runs for a logged-in user with a pending
    draft for [num_persons] persons and the available set recomputed from
    the table has fewer seats than that, it answers "Not enough seats
    available" (status 400), writes nothing to the table and publishes
    nothing; the draft is gone from the session. *)
Theorem train_finalize_insufficient_seats req env w user booking_data
    item_id travel_date num_persons available :
  email (sess w) = Some user →
  pending_booking (sess w) = Some booking_data →
  booking_data !! "item_id" = Some (VStr item_id) →
  booking_data !! "travel_date" = Some (VStr travel_date) →
  booking_data !! "num_persons" = Some (VInt num_persons) →
  computeAvailableSeats (bookings_table w) item_id travel_date all_seats_train
    = Some available →
  Z.of_nat (length available) < num_persons →
  (run (final_confirm_train_booking req env) w).1 =
    Json false "Not enough seats available. Please try again." 400 ∧
  bookings_table (run (final_confirm_train_booking req env) w).2 =
    bookings_table w ∧
  trace (run (final_confirm_train_booking req env) w).2 = trace w ∧
  pending_booking (sess (run (final_confirm_train_booking req env) w).2) = None.
Proof.
  intros Hu Hp Hi Ht Hn Hav Hlt.
  apply computeAvailableSeats_Some in Hav as (booked & Hb & ->).
  unfold final_confirm_train_booking.
  hunfold. rewrite Hu. hunfold. rewrite Hp, (dict_empty_false _ _ _ Hi).
  rewrite Hi, Ht. hunfold. rewrite Hb, Hn. hunfold.
  by rewrite decide_True by done.
Qed.

(** The same check at the details page: the draft is not stored. *)
Lemma confirm_train_details_insufficient_seats req env w user price persons
    total s_price s_persons item_id travel_date available :
  email (sess w) = Some user →
  args req !! "price" = Some s_price →
  Decimal_of_str s_price = Some price →
  args req !! "persons" = Some s_persons →
  int_of_str s_persons = Some persons →
  Decimal_mul price persons = Some total →
  args req !! "trainId" = Some item_id →
  args req !! "date" = Some travel_date →
  computeAvailableSeats (bookings_table w) item_id travel_date all_seats_train
    = Some available →
  Z.of_nat (length available) < persons →
  run (confirm_train_details req env) w =
    (FlashRedirect
       "Not enough seats available for the selected number of persons."
       "error" "train", w).
Proof.
  intros Hu Hpr Hprice Hpe Hpers Hmul Hid Hdate Hav Hlt.
  apply computeAvailableSeats_Some in Hav as (booked & Hb & ->).
  unfold confirm_train_details.
  hunfold. rewrite Hu. hunfold. rewrite Hpr, Hprice, Hpe, Hpers, Hmul.
  replace (train_booking_details req user price persons total !! "item_id")
    with (Some (opt_str (args req !! "trainId"))) by done.
  replace (train_booking_details req user price persons total !! "travel_date")
    with (Some (opt_str (args req !! "date"))) by done.
  replace (train_booking_details req user price persons total !! "num_persons")
    with (Some (VInt persons)) by done.
  rewrite Hid, Hdate. cbn [opt_str]. hunfold. rewrite Hb.
  by rewrite decide_True by done.
Qed.


(** The train finalize does answer success: for a logged-in user whose
    draft is the one of the details page, on a typed table, when at least
    [num_persons] seats are available and [num_persons] is not negative. *)
Lemma train_finalize_succeeds req env w user booking_data item_id travel_date
    persons owner train_number source destination total_price available :
  email (sess w) = Some user →
  pending_booking (sess w) = Some booking_data →
  booking_data !! "item_id" = Some (VStr item_id) →
  booking_data !! "travel_date" = Some (VStr travel_date) →
  booking_data !! "num_persons" = Some (VInt persons) →
  booking_data !! "user_email" = Some (VStr owner) →
  booking_data !! "train_number" = Some train_number →
  booking_data !! "source" = Some source →
  booking_data !! "destination" = Some destination →
  booking_data !! "total_price" = Some total_price →
  computeAvailableSeats (bookings_table w) item_id travel_date all_seats_train
    = Some available →
  0 ≤ persons ≤ Z.of_nat (length available) →
  (run (final_confirm_train_booking req env) w).1 =
    Json true "Train booking confirmed successfully!" 200.
Proof.
  intros Hu Hp Hi Ht Hn Ho Htn Hsrc Hdst Htot Hav Hle.
  apply computeAvailableSeats_Some in Hav as (booked & Hb & ->).
  destruct (sample_is_Some (randbelow env) _ _ Hle) as [allocated Hs].
  unfold final_confirm_train_booking.
  hunfold. rewrite Hu. hunfold. rewrite Hp, (dict_empty_false _ _ _ Hi).
  rewrite Hi, Ht. hunfold. rewrite Hb, Hn. hunfold.
  rewrite decide_False by lia. hunfold. rewrite Hs.
  assert (Hkey : item_key
            (<["booking_date" := VStr (now_isoformat env)]>
               (<["booking_id" := VStr (uuid4 env)]>
                  (<["seats_display" := VStr (PyStr.join_comma allocated)]>
                     booking_data))) = Some (owner, now_isoformat env)).
  { apply item_key_Some. simpl. by dict_lookups. }
  rewrite Hkey. hunfold. dict_lookups.
  by rewrite Htn, Hsrc, Hdst, Ht, Htot.
Qed.

End TrainClaims.

(** ** The bus flow: finalize *)

Section BusClaims.

Context `{Lib : StdLib}.
Local Abbreviation item := (gmap string value).
Local Abbreviation table := (gmap (string * string) item).
Implicit Types (w : world) (d b : item) (db : table).

Lemma any_booked_true booked selected :
  any_booked booked selected = true ↔ ∃ s, s ∈ selected ∧ s ∈ booked.
Proof.
  unfold any_booked. rewrite existsb_exists. split.
  - intros (s & Hin & Hs). apply bool_decide_eq_true in Hs.
    exists s. by rewrite list_elem_of_In.
  - intros (s & Hin & Hs). exists s. rewrite <- list_elem_of_In.
    by rewrite bool_decide_eq_true.
Qed.

Lemma str_empty_false s : s ≠ "" → str_empty s = false.
Proof. by destruct s. Qed.

(** C2, as the code has it.  When the bus finalize runs for a logged-in
    user with a pending draft and one of the requested seats is taken for
    the draft's item and date (by the table as it is then), it answers "One
    or more selected seats are already booked", writes nothing to the table
    and publishes nothing: no booking with the remaining seats is made. *)
Theorem bus_finalize_rejects_taken_seat req env w user booking
    selected_seats_str item_id travel_date seat :
  email (sess w) = Some user →
  pending_booking (sess w) = Some booking →
  form req !! "selected_seats" = Some selected_seats_str →
  selected_seats_str ≠ "" →
  booking !! "item_id" = Some (VStr item_id) →
  booking !! "travel_date" = Some (VStr travel_date) →
  store_typed (bookings_table w) →
  seat ∈ PyStr.split_comma selected_seats_str →
  spec_taken (bookings_table w) item_id travel_date seat →
  (run (final_confirm_bus_booking req env) w).1 =
    FlashRedirect
      "One or more selected seats are already booked! Please select different seats."
      "error" "bus" ∧
  bookings_table (run (final_confirm_bus_booking req env) w).2 =
    bookings_table w ∧
  trace (run (final_confirm_bus_booking req env) w).2 = trace w.
Proof.
  intros Hu Hp Hsel Hne Hi Ht Hdb Hseat Htaken.
  apply elem_of_taken_seats in Htaken.
  assert (Hany : any_booked (taken_seats (bookings_table w) item_id travel_date)
                   (PyStr.split_comma selected_seats_str) = true)
    by (apply any_booked_true; eauto).
  unfold final_confirm_bus_booking.
  hunfold. rewrite Hu. hunfold. rewrite Hp, Hsel.
  rewrite (dict_empty_false _ _ _ Hi), (str_empty_false _ Hne).
  cbn [orb]. rewrite Hi, Ht. hunfold.
  rewrite (booked_seats_query _ _ _ Hdb). hunfold.
  by rewrite Hany.
Qed.

(** What the bus finalize does when no requested seat is taken: it stores
    the draft with exactly the requested [seats_display], whatever seats
    that names. *)
Lemma bus_finalize_commits req env w user booking selected_seats_str
    item_id travel_date owner source destination total_price :
  email (sess w) = Some user →
  pending_booking (sess w) = Some booking →
  form req !! "selected_seats" = Some selected_seats_str →
  selected_seats_str ≠ "" →
  booking !! "item_id" = Some (VStr item_id) →
  booking !! "travel_date" = Some (VStr travel_date) →
  booking !! "user_email" = Some (VStr owner) →
  booking !! "source" = Some source →
  booking !! "destination" = Some destination →
  booking !! "total_price" = Some total_price →
  store_typed (bookings_table w) →
  (∀ seat, seat ∈ PyStr.split_comma selected_seats_str →
           ¬ spec_taken (bookings_table w) item_id travel_date seat) →
  let Item :=
    <["booking_date" := VStr (now_isoformat env)]>
      (<["booking_id" := VStr (uuid4 env)]>
         (<["seats_display" := VStr selected_seats_str]> booking)) in
  (run (final_confirm_bus_booking req env) w).1 =
    FlashRedirect "Bus booking confirmed!" "success" "dashboard" ∧
  bookings_table (run (final_confirm_bus_booking req env) w).2 =
    <[(owner, now_isoformat env) := Item]> (bookings_table w) ∧
  trace (run (final_confirm_bus_booking req env) w).2 =
    (trace w ++
     [PutItem Item;
      Publish "Bus Booking Confirmed"
        (bus_message source destination (VStr travel_date)
           (VStr selected_seats_str) total_price)])%list.
Proof.
  intros Hu Hp Hsel Hne Hi Ht Ho Hsrc Hdst Htot Hdb Hfree Item.
  assert (Hany : any_booked (taken_seats (bookings_table w) item_id travel_date)
                   (PyStr.split_comma selected_seats_str) = false).
  { apply not_true_is_false. rewrite any_booked_true.
    intros (s & Hs & Hin). apply (Hfree s Hs). by apply elem_of_taken_seats. }
  assert (Hkey : item_key Item = Some (owner, now_isoformat env)).
  { apply item_key_Some. unfold Item. simpl.
    by rewrite !lookup_insert_ne, lookup_insert_eq by done. }
  unfold final_confirm_bus_booking.
  hunfold. rewrite Hu. hunfold. rewrite Hp, Hsel.
  rewrite (dict_empty_false _ _ _ Hi), (str_empty_false _ Hne).
  cbn [orb]. rewrite Hi, Ht. hunfold.
  rewrite (booked_seats_query _ _ _ Hdb). hunfold.
  rewrite Hany. fold Item. rewrite Hkey. hunfold.
  unfold Item. dict_lookups.
  rewrite Hsrc, Hdst, Ht, Htot. hunfold.
  by rewrite <- app_assoc.
Qed.

End BusClaims.

(** ** Cancellation *)

Section CancelClaims.

Context `{Lib : StdLib}.
Local Abbreviation item := (gmap string value).
Local Abbreviation table := (gmap (string * string) item).
Implicit Types (w : world) (d b : item) (db : table).

Lemma cancel_booking_deletes req env w user booking_id booking_date :
  email (sess w) = Some user →
  form req !! "booking_id" = Some booking_id →
  booking_id ≠ "" →
  form req !! "booking_date" = Some booking_date →
  booking_date ≠ "" →
  run (cancel_booking req env) w =
    (FlashRedirect ("Booking " +:+ booking_id +:+ " cancelled successfully!")
       "success" "dashboard",
     mkWorld (delete (user, booking_date) (bookings_table w)) (sess w)
       (trace w ++ [DeleteItem user booking_date])).
Proof.
  intros Hu Hid Hid' Hdate Hdate'. unfold cancel_booking.
  hunfold. rewrite Hu, Hid, Hdate.
  by rewrite (str_empty_false _ Hid'), (str_empty_false _ Hdate').
Qed.


End CancelClaims.

(** ** Commits *)

Section CommitClaims.

Context `{Lib : StdLib}.
Local Abbreviation item := (gmap string value).
Local Abbreviation table := (gmap (string * string) item).
Implicit Types (w : world) (d b : item) (db : table).

Lemma committed_intro w Item k db' tr' s' notes :
  item_key Item = Some k →
  db' = <[k := Item]> (bookings_table w) →
  tr' = (trace w ++ PutItem Item :: notes)%list →
  (∀ e, e ∈ notes → ∃ subject message, e = Publish subject message) →
  committed w (mkWorld db' s' tr') Item k.
Proof. intros Hk -> -> Hn. split_and!; [done..|]. by exists notes. Qed.

(** The key a finalize stores under has the time of the request. *)
Ltac commit_key :=
  match goal with
  | H : item_key ?I = Some ?p |- _ =>
      let Hd := fresh "Hd" in
      pose proof H as Hd; apply item_key_Some in Hd as [_ Hd];
      revert Hd; dict_lookups; intros [= Hd];
      destruct p as [u t]; simpl in Hd; subst t
  end.

Ltac commit_core :=
  first
    [ apply (committed_intro _ _ _ _ _ _ []);
      [done|done|done|by intros e ?%elem_of_nil]
    | eapply (committed_intro _ _ _ _ _ _ [_]);
      [done|done|by rewrite <- app_assoc
      |intros e ->%list_elem_of_singleton; eauto] ].

Ltac commit_case tac :=
  commit_key; right;
  match goal with
  | H : item_key ?I = Some (?u, _) |- _ => exists I, u
  end;
  first [commit_core | split; [commit_core | tac]].

(** A finalize leaves the table alone or commits one item under the key
    made of a user and the time of the request. *)
Lemma finalize_outcome f req env w :
  untouched w (run (finalize f req env) w).2 ∨
  ∃ Item user,
    committed w (run (finalize f req env) w).2 Item (user, now_isoformat env).
Proof.
  destruct f; simpl.
  - unfold final_confirm_train_booking. hcases;
      first [by left | commit_case idtac].
  - unfold final_confirm_bus_booking. hcases;
      first [by left | commit_case idtac].
  - unfold confirm_flight_booking. hcases;
      first [by left | commit_case idtac].
  - unfold confirm_hotel_booking. hcases;
      first [by left | commit_case idtac].
Qed.

(** The item a flight or hotel finalize commits is the draft of its flow
    with other keys set: it has no [item_id] and no [seats_display]. *)
Lemma flight_hotel_outcome f req env w :
  f = FlightFinalize ∨ f = HotelFinalize →
  session_ok (sess w) →
  untouched w (run (finalize f req env) w).2 ∨
  ∃ Item user,
    committed w (run (finalize f req env) w).2 Item (user, now_isoformat env) ∧
    Item !! "item_id" = None ∧
    Item !! "seats_display" = None ∧
    (f = FlightFinalize → ∃ s, Item !! "flight_id" = Some (VStr s)) ∧
    (f = HotelFinalize → Item !! "travel_date" = None).
Proof.
  intros Hf (_ & Hflight & Hhotel).
  destruct Hf as [-> | ->]; simpl.
  - unfold confirm_flight_booking. hcases; first
      [ by left
      | match goal with
        | H : pending_flight_booking _ = Some ?g |- _ =>
            destruct (Hflight g eq_refl) as ((fid & Hfid) & Hid & Hsd)
        end;
        commit_case ltac:(dict_lookups; split_and!; by eauto) ].
  - unfold confirm_hotel_booking. hcases; first
      [ by left
      | match goal with
        | H : pending_hotel_booking _ = Some ?g |- _ =>
            destruct (Hhotel g eq_refl) as (Hid & Htd & Hsd)
        end;
        commit_case ltac:(dict_lookups; split_and!; by eauto) ].
Qed.

(** C9, as the code has it.  A finalize of any of the four flows either
    leaves the table as it was or stores one item under the key made of its
    user and the time of the request; every item stored before under
    another key is still there, unchanged, and so is every item of the table
    when that key was free. *)
Theorem commit_preserves_other_keys f req env w :
  let w' := (run (finalize f req env) w).2 in
  untouched w w' ∨
  ∃ Item user,
    committed w w' Item (user, now_isoformat env) ∧
    (∀ k b, k ≠ (user, now_isoformat env) →
            bookings_table w !! k = Some b → bookings_table w' !! k = Some b) ∧
    (bookings_table w !! (user, now_isoformat env) = None →
     ∀ k b, bookings_table w !! k = Some b → bookings_table w' !! k = Some b).
Proof.
  intros w'. unfold w'.
  destruct (finalize_outcome f req env w) as [?|(Item & user & Hc)]; [by left|].
  right. exists Item, user. split; [done|].
  destruct Hc as (_ & -> & _). split.
  - intros k b Hk Hb. by rewrite lookup_insert_ne.
  - intros Hfree k b Hb. rewrite lookup_insert_ne; [done|]. congruence.
Qed.

(** C10, as the code has it.  The item a flight or hotel finalize commits has
    no [item_id] (a flight item has [flight_id]; a hotel item has no
    [travel_date] either) and no [seats_display]; so it adds nothing to any
    taken set: for every query the availability after the commit is the
    availability of the table without whatever was stored under the new
    item's key, and it is the availability before the commit when that key
    was free. *)
Theorem flight_hotel_commit_no_seat_effect f req env w :
  f = FlightFinalize ∨ f = HotelFinalize →
  world_ok w →
  let w' := (run (finalize f req env) w).2 in
  untouched w w' ∨
  ∃ Item user,
    committed w w' Item (user, now_isoformat env) ∧
    Item !! "item_id" = None ∧
    Item !! "seats_display" = None ∧
    (f = FlightFinalize → ∃ s, Item !! "flight_id" = Some (VStr s)) ∧
    (f = HotelFinalize → Item !! "travel_date" = None) ∧
    ∀ item_id travel_date seat_universe,
      computeAvailableSeats (bookings_table w') item_id travel_date
        seat_universe =
      computeAvailableSeats
        (delete (user, now_isoformat env) (bookings_table w))
        item_id travel_date seat_universe ∧
      (bookings_table w !! (user, now_isoformat env) = None →
       computeAvailableSeats (bookings_table w') item_id travel_date
         seat_universe =
       computeAvailableSeats (bookings_table w) item_id travel_date
         seat_universe).
Proof.
  intros Hf [Hdb Hs] w'. unfold w'.
  destruct (flight_hotel_outcome f req env w Hf Hs)
    as [?|(Item & user & Hc & Hid & Hsd & Hfl & Hho)]; [by left|].
  right. exists Item, user. split_and!; try done.
  intros i t U. destruct Hc as (_ & -> & _).
  assert (Heq : computeAvailableSeats
                  (<[(user, now_isoformat env) := Item]> (bookings_table w)) i t U =
                computeAvailableSeats
                  (delete (user, now_isoformat env) (bookings_table w)) i t U).
  { rewrite !computeAvailableSeats_typed.
    - by rewrite taken_seats_insert, contribution_no_item_id, union_empty_r_L.
    - by apply store_typed_delete.
    - apply store_typed_insert; [done|]. by apply item_typed_no_seats. }
  split; [done|]. intros Hfree. by rewrite Heq, delete_id.
Qed.

End CommitClaims.

(** * The claims on concrete worlds *)

Module Scenarios.

Import Demo.
#[local] Existing Instance whole_numbers.

Lemma w_alice_reachable : reachable w_alice.
Proof. apply reachable_login, reachable_init. Qed.

Lemma w_train_details_reachable : reachable w_train_details.
Proof.
  apply (reachable_step w_alice ConfirmTrainDetails (train_request "3") env1).
  apply w_alice_reachable.
Qed.

Lemma w_train_booked_reachable : reachable w_train_booked.
Proof.
  apply (reachable_step w_train_details (Finalize TrainFinalize) no_request env2).
  apply w_train_details_reachable.
Qed.

Lemma w_bus_booked_reachable : reachable w_bus_booked.
Proof.
  apply (reachable_step w_bus_seats (Finalize BusFinalize)
           (seats_request "S3, S41") env2).
  apply (reachable_step w_alice SelectBusSeats bus_request env1).
  apply w_alice_reachable.
Qed.

Lemma w_first_commit_reachable : reachable w_first_commit.
Proof.
  apply (reachable_step w_two_drafts (Finalize TrainFinalize) no_request env2).
  apply (reachable_step w_train_details ConfirmFlightDetails flight_request env1).
  apply w_train_details_reachable.
Qed.

Lemma w_bob_booked_reachable : reachable w_bob_booked.
Proof.
  apply (reachable_step _ (Finalize TrainFinalize) no_request env2).
  apply (reachable_step _ ConfirmTrainDetails (train_request "95") env1).
  apply reachable_login, reachable_init.
Qed.

Example train_details_page :
  (run (confirm_train_details (train_request "3") env1) w_alice).1 =
  RenderTrainDetails (train_draft 3) ["S4"; "S12"; "S20"].
Proof. reflexivity. Qed.

Example train_booked_trace :
  trace w_train_booked =
  [PutItem (stamped (train_draft 3) "S4, S12, S20" env2);
   Publish "Train Booking Confirmed"
     ("Train 12615 from Chennai to Delhi on 2024-06-01 is confirmed." +:+ nl
      +:+ "Seats: S4, S12, S20" +:+ nl +:+ "Total: " +:+ rupee +:+ "750")].
Proof. reflexivity. Qed.

Example train_booked_table :
  bookings_table w_train_booked =
  {[ (alice, now_isoformat env2) := stamped (train_draft 3) "S4, S12, S20" env2 ]}.
Proof. reflexivity. Qed.


Example train_booked_available :
  computeAvailableSeats (bookings_table w_train_booked) "T100" "2024-06-01"
    (seat_range 1 21) =
  Some ["S1"; "S2"; "S3"; "S5"; "S6"; "S7"; "S8"; "S9"; "S10"; "S11"; "S13";
        "S14"; "S15"; "S16"; "S17"; "S18"; "S19"].
Proof. reflexivity. Qed.

(** C3 with a universe of 100 seats of which 95 are taken and a draft for
    10 persons. *)
Lemma train_finalize_insufficient_seats_witness :
  length all_seats_train = 100%nat ∧
  computeAvailableSeats (bookings_table w_alice_late) "T100" "2024-06-01"
    all_seats_train = Some ["S21"; "S63"; "S77"; "S83"; "S86"] ∧
  train_draft 10 !! "num_persons" = Some (VInt 10) ∧
  (run (final_confirm_train_booking no_request env3) w_alice_late).1 =
    Json false "Not enough seats available. Please try again." 400 ∧
  bookings_table (run (final_confirm_train_booking no_request env3) w_alice_late).2
    = bookings_table w_alice_late ∧
  trace (run (final_confirm_train_booking no_request env3) w_alice_late).2
    = trace w_alice_late.
Proof.
  split; [reflexivity|]. split; [reflexivity|]. split; [reflexivity|].
  destruct (train_finalize_insufficient_seats no_request env3 w_alice_late
              alice (train_draft 10) "T100" "2024-06-01" 10
              ["S21"; "S63"; "S77"; "S83"; "S86"]
              eq_refl eq_refl eq_refl eq_refl eq_refl eq_refl eq_refl)
    as (H1 & H2 & H3 & _).
  split; [exact H1|]. split; [exact H2|exact H3].
Defined.


(** The bus booking with a seat no bus has. *)
Example bus_booked_table :
  bookings_table w_bus_booked =
  {[ (alice, now_isoformat env2) := stamped bus_draft "S3, S41" env2 ]}.
Proof. reflexivity. Qed.

(** A piece of a [seats_display], read off the evaluated split. *)
Lemma elem_of_split s seat pieces :
  PyStr.split_comma s = pieces → In seat pieces → seat ∈ PyStr.split_comma s.
Proof. intros <- Hin. by apply list_elem_of_In. Qed.

Lemma S41_not_a_bus_seat : "S41" ∉ all_seats_bus.
Proof. apply (bool_decide_unpack _). by vm_compute. Qed.

Lemma S41_taken :
  spec_taken (bookings_table w_bus_booked) "B7" "2024-06-01" "S41".
Proof.
  exists (alice, now_isoformat env2), (stamped bus_draft "S3, S41" env2),
         "S3, S41".
  split_and!; try reflexivity.
  apply (elem_of_split "S3, S41" _ ["S3"; "S41"] eq_refl). simpl. tauto.
Qed.

(** C2 as stated fails: with an empty table "S41" is not an available seat
    of a bus, and the request that names it is accepted and stored. *)
Lemma bus_finalize_accepts_seat_outside_universe :
  computeAvailableSeats (bookings_table w_bus_seats) "B7" "2024-06-01"
    all_seats_bus = Some all_seats_bus ∧
  ("S41" ∈ PyStr.split_comma "S3, S41") ∧
  ("S41" ∉ all_seats_bus) ∧
  run (final_confirm_bus_booking (seats_request "S3, S41") env2) w_bus_seats =
    (FlashRedirect "Bus booking confirmed!" "success" "dashboard",
     w_bus_booked) ∧
  bookings_table w_bus_booked !! (alice, now_isoformat env2) =
    Some (stamped bus_draft "S3, S41" env2) ∧
  stamped bus_draft "S3, S41" env2 !! "seats_display" = Some (VStr "S3, S41").
Proof.
  split_and!; try reflexivity.
  - apply (elem_of_split "S3, S41" _ ["S3"; "S41"] eq_refl). simpl. tauto.
  - apply S41_not_a_bus_seat.
Qed.

(** C2 as amended, on a second request for the same bus that names the
    taken seat "S3". *)
Lemma bus_finalize_rejects_taken_seat_witness :
  pending_booking (sess w_bus_again) = Some bus_draft ∧
  spec_taken (bookings_table w_bus_again) "B7" "2024-06-01" "S3" ∧
  (run (final_confirm_bus_booking (seats_request "S5, S3") env3) w_bus_again).1 =
    FlashRedirect
      "One or more selected seats are already booked! Please select different seats."
      "error" "bus" ∧
  bookings_table
    (run (final_confirm_bus_booking (seats_request "S5, S3") env3) w_bus_again).2 =
    bookings_table w_bus_again ∧
  trace
    (run (final_confirm_bus_booking (seats_request "S5, S3") env3) w_bus_again).2 =
    trace w_bus_again.
Proof.
  assert (Hty : store_typed (bookings_table w_bus_again)).
  { apply (reachable_world_ok w_bus_again).
    apply (reachable_step w_bus_booked SelectBusSeats bus_request env3).
    apply w_bus_booked_reachable. }
  assert (Htaken : spec_taken (bookings_table w_bus_again) "B7" "2024-06-01" "S3").
  { exists (alice, now_isoformat env2), (stamped bus_draft "S3, S41" env2),
           "S3, S41".
    split_and!; try reflexivity.
    apply (elem_of_split "S3, S41" _ ["S3"; "S41"] eq_refl). simpl. tauto. }
  assert (Hseat : "S3" ∈ PyStr.split_comma "S5, S3").
  { apply (elem_of_split "S5, S3" _ ["S5"; "S3"] eq_refl). simpl. tauto. }
  split; [reflexivity|]. split; [exact Htaken|].
  apply (bus_finalize_rejects_taken_seat (seats_request "S5, S3") env3
           w_bus_again alice bus_draft "S5, S3" "B7" "2024-06-01" "S3"
           eq_refl eq_refl eq_refl ltac:(discriminate) eq_refl eq_refl
           Hty Hseat Htaken).
Defined.

(** C5 as stated fails: "S41" is taken and is no seat of the universe, so
    the available seats and the taken seats together are more than the
    universe. *)
Lemma availability_partition_counterexample :
  ∃ available,
    computeAvailableSeats (bookings_table w_bus_booked) "B7" "2024-06-01"
      all_seats_bus = Some available ∧
    ∀ taken : gset string,
      (∀ seat, seat ∈ taken ↔
               spec_taken (bookings_table w_bus_booked) "B7" "2024-06-01" seat) →
      list_to_set available ∪ taken ≠ list_to_set all_seats_bus.
Proof.
  eexists. split; [reflexivity|]. intros taken Htaken Heq.
  assert (Hin : "S41" ∈ (list_to_set all_seats_bus : gset string)).
  { rewrite <- Heq. apply elem_of_union_r, Htaken, S41_taken. }
  apply elem_of_list_to_set in Hin. by apply S41_not_a_bus_seat.
Qed.

(** C5 as amended, on the same table. *)
Lemma availability_partition_witness :
  store_typed (bookings_table w_bus_booked) ∧
  ∃ (available : list string) (taken : gset string),
    computeAvailableSeats (bookings_table w_bus_booked) "B7" "2024-06-01"
      all_seats_bus = Some available ∧
    (∀ seat, seat ∈ taken ↔
             spec_taken (bookings_table w_bus_booked) "B7" "2024-06-01" seat) ∧
    list_to_set available ∪ (taken ∩ list_to_set all_seats_bus)
      = (list_to_set all_seats_bus : gset string) ∧
    list_to_set available ∩ taken = (∅ : gset string).
Proof.
  pose proof (proj1 (reachable_world_ok _ w_bus_booked_reachable)) as Hty.
  split; [exact Hty|].
  exact (availability_partition (bookings_table w_bus_booked) "B7"
           "2024-06-01" all_seats_bus Hty).
Defined.

(** C7 as stated fails for a [seats_display] that cannot be split: the
    item is not skipped; the computation raises, and so does the page that
    runs it.  (Skipping it would give the whole universe.) *)
Lemma unparsable_seats_display_not_skipped :
  bookings_table w_malformed !! (bob, "2024-05-29T09:00:00.000000") =
    Some malformed_item ∧
  malformed_item !! "seats_display" = Some (VInt 4) ∧
  computeAvailableSeats (bookings_table w_malformed) "T100" "2024-06-01"
    all_seats_train = None ∧
  (run (confirm_train_details (train_request "3") env1) w_malformed).1 =
    Raised AttributeError ∧
  computeAvailableSeats
    (delete (bob, "2024-05-29T09:00:00.000000") (bookings_table w_malformed))
    "T100" "2024-06-01" all_seats_train = Some all_seats_train.
Proof. split_and!; reflexivity. Qed.

(** C7 as amended, on the table that holds Alice's train booking, with a
    hotel item that has no [seats_display]. *)
Lemma missing_seats_display_skipped_witness :
  store_typed (bookings_table w_train_booked) ∧
  hotel_item !! "seats_display" = None ∧
  computeAvailableSeats
    (<[(alice, now_isoformat env3) := hotel_item]> (bookings_table w_train_booked))
    "T100" "2024-06-01" all_seats_train =
  computeAvailableSeats
    (delete (alice, now_isoformat env3) (bookings_table w_train_booked))
    "T100" "2024-06-01" all_seats_train ∧
  is_Some (computeAvailableSeats
             (<[(alice, now_isoformat env3) := hotel_item]>
                (bookings_table w_train_booked))
             "T100" "2024-06-01" all_seats_train).
Proof.
  pose proof (proj1 (reachable_world_ok _ w_train_booked_reachable)) as Hty.
  split; [exact Hty|]. split; [reflexivity|].
  exact (proj2 (missing_seats_display_skipped (bookings_table w_train_booked)
                  (alice, now_isoformat env3) hotel_item "T100" "2024-06-01"
                  all_seats_train Hty eq_refl)).
Defined.


Example first_commit_table :
  bookings_table w_first_commit =
  {[ (alice, now_isoformat env2) := stamped (train_draft 3) "S4, S12, S20" env2 ]}.
Proof. reflexivity. Qed.

(** C9 as stated fails: the flight confirmation that reads the time of
    Alice's train confirmation stores its item under the key of the train
    booking, which is gone. *)
Lemma commit_overwrites_same_key :
  bookings_table w_first_commit !! (alice, now_isoformat env2) =
    Some (stamped (train_draft 3) "S4, S12, S20" env2) ∧
  run (finalize FlightFinalize no_request env_same_time) w_first_commit =
    (FlashRedirect "Flight booking confirmed successfully!" "success"
       "dashboard", w_second_commit) ∧
  bookings_table w_second_commit !! (alice, now_isoformat env2) ≠
    Some (stamped (train_draft 3) "S4, S12, S20" env2).
Proof.
  split; [reflexivity|]. split; [reflexivity|].
  intros Heq.
  assert (H1 : bookings_table w_second_commit !! (alice, now_isoformat env2)
                 ≫= (.!! "booking_type") = Some (VStr "flight"))
    by reflexivity.
  assert (H2 : Some (stamped (train_draft 3) "S4, S12, S20" env2)
                 ≫= (.!! "booking_type") = Some (VStr "train"))
    by reflexivity.
  rewrite Heq, H2 in H1. discriminate H1.
Qed.

(** C10 as stated fails for the same reason: after that flight confirmation
    seat "S4" of train T100, which Alice had booked, is available again. *)
Lemma flight_commit_changes_availability :
  run (finalize FlightFinalize no_request env_same_time) w_first_commit =
    (FlashRedirect "Flight booking confirmed successfully!" "success"
       "dashboard", w_second_commit) ∧
  computeAvailableSeats (bookings_table w_first_commit) "T100" "2024-06-01"
    (seat_range 1 7) = Some ["S1"; "S2"; "S3"; "S5"; "S6"] ∧
  computeAvailableSeats (bookings_table w_second_commit) "T100" "2024-06-01"
    (seat_range 1 7) = Some ["S1"; "S2"; "S3"; "S4"; "S5"; "S6"] ∧
  computeAvailableSeats (bookings_table w_second_commit) "T100" "2024-06-01"
    all_seats_train
  ≠ computeAvailableSeats (bookings_table w_first_commit) "T100" "2024-06-01"
      all_seats_train.
Proof.
  split; [reflexivity|]. split; [reflexivity|]. split; [reflexivity|].
  intros Heq.
  assert (H1 : length <$> computeAvailableSeats (bookings_table w_second_commit)
                 "T100" "2024-06-01" all_seats_train = Some 100%nat)
    by reflexivity.
  assert (H2 : length <$> computeAvailableSeats (bookings_table w_first_commit)
                 "T100" "2024-06-01" all_seats_train = Some 97%nat)
    by reflexivity.
  rewrite Heq, H2 in H1. discriminate H1.
Qed.

(** C10 as amended: the flight confirmation at a later time leaves every
    availability as it was. *)
Lemma flight_hotel_commit_no_seat_effect_witness :
  world_ok w_first_commit ∧
  ∀ item_id travel_date seat_universe,
    computeAvailableSeats (bookings_table w_flight_booked) item_id travel_date
      seat_universe =
    computeAvailableSeats (bookings_table w_first_commit) item_id travel_date
      seat_universe.
Proof.
  pose proof (reachable_world_ok _ w_first_commit_reachable) as Hok.
  split; [exact Hok|]. intros i t U.
  destruct (flight_hotel_commit_no_seat_effect FlightFinalize no_request env3
              w_first_commit (or_introl eq_refl) Hok)
    as [[Hdb _]|(Item & user & _ & _ & _ & _ & _ & Hav)].
  - change (bookings_table w_flight_booked = bookings_table w_first_commit)
      in Hdb. by rewrite Hdb.
  - destruct (Hav i t U) as [_ Hfree]. apply Hfree.
    rewrite first_commit_table. apply lookup_singleton_ne.
    intros Hk. discriminate Hk.
Defined.

End Scenarios.

(** * More properties of the booking flows *)

Section FlowFacts.

Context `{Lib : StdLib}.
Local Abbreviation item := (gmap string value).
Local Abbreviation table := (gmap (string * string) item).
Implicit Types (w : world) (d b : item) (db : table).

(** X1.  A visitor who is not logged in gets the login redirect (the train
    finalize answers 401 in JSON) from every handler of the booking flows,
    and nothing changes: table, drafts and trace stay as they were. *)
Theorem not_logged_in_no_effect r req env w :
  email (sess w) = None →
  run (dispatch r req env) w = (login_required r, w).
Proof.
  intros Hu. destruct r as [| | | | |[]|]; simpl.
  - unfold confirm_train_details. hunfold. by rewrite Hu.
  - unfold confirm_bus_details. hunfold. by rewrite Hu.
  - unfold select_bus_seats. hunfold. by rewrite Hu.
  - unfold confirm_flight_details. hunfold. by rewrite Hu.
  - unfold confirm_hotel_details. hunfold. by rewrite Hu.
  - unfold final_confirm_train_booking. hunfold. by rewrite Hu.
  - unfold final_confirm_bus_booking. hunfold. by rewrite Hu.
  - unfold confirm_flight_booking. hunfold. by rewrite Hu.
  - unfold confirm_hotel_booking. hunfold. by rewrite Hu.
  - unfold cancel_booking. hunfold. by rewrite Hu.
Qed.




(** X3.  The flows keep their drafts apart: the train and bus handlers
    touch [pending_booking] only, the flight handlers
    [pending_flight_booking] only, the hotel handlers
    [pending_hotel_booking] only, and cancellation touches no draft. *)
Theorem drafts_kept_apart r req env w :
  let s := sess w in
  let s' := sess (run (dispatch r req env) w).2 in
  match r with
  | ConfirmTrainDetails | ConfirmBusDetails | SelectBusSeats
  | Finalize TrainFinalize | Finalize BusFinalize =>
      pending_flight_booking s' = pending_flight_booking s ∧
      pending_hotel_booking s' = pending_hotel_booking s
  | ConfirmFlightDetails | Finalize FlightFinalize =>
      pending_booking s' = pending_booking s ∧
      pending_hotel_booking s' = pending_hotel_booking s
  | ConfirmHotelDetails | Finalize HotelFinalize =>
      pending_booking s' = pending_booking s ∧
      pending_flight_booking s' = pending_flight_booking s
  | CancelBooking =>
      pending_booking s' = pending_booking s ∧
      pending_flight_booking s' = pending_flight_booking s ∧
      pending_hotel_booking s' = pending_hotel_booking s
  end.
Proof.
  destruct r as [| | | | |[]|]; simpl.
  - unfold confirm_train_details. hcases; done.
  - unfold confirm_bus_details. hcases; done.
  - unfold select_bus_seats. hcases; done.
  - unfold confirm_flight_details. hcases; done.
  - unfold confirm_hotel_details. hcases; done.
  - unfold final_confirm_train_booking. hcases; done.
  - unfold final_confirm_bus_booking. hcases; done.
  - unfold confirm_flight_booking. hcases; done.
  - unfold confirm_hotel_booking. hcases; done.
  - unfold cancel_booking. hcases; done.
Qed.



End FlowFacts.

(** * Seats over a sequence of requests *)

Section SeatFacts.

Context `{Lib : StdLib}.
Local Abbreviation item := (gmap string value).
Local Abbreviation table := (gmap (string * string) item).
Implicit Types (w : world) (d b : item) (db : table).

(** When the loop returns, it returns the seats of the items it went
    over. *)
Lemma booked_seats_from_Some Items : ∀ acc g,
  booked_seats_from acc Items = Some g → g = acc ∪ ⋃ (seats_of <$> Items).
Proof.
  induction Items as [|b rest IH]; intros acc g; simpl.
  - intros [= <-]. set_solver.
  - unfold seats_of at 1.
    destruct (b !! "seats_display") as [[]|]; try done.
    + intros ->%IH. set_solver.
    + intros ->%IH. set_solver.
Qed.

Lemma booked_seats_query_Some db i t g :
  booked_seats (query_item_date db i t) = Some g → g = taken_seats db i t.
Proof.
  intros ->%booked_seats_from_Some. unfold taken_seats. set_solver.
Qed.

(** The seats of a stamped train item: the allocated ones, or the empty
    identifier when there are none. *)
Lemma seats_of_join (l : list string) d seat :
  Forall (λ s, PyStr.no_comma s = true) l →
  seat ∈ seats_of (<["seats_display" := VStr (PyStr.join_comma l)]> d) →
  seat = "" ∨ seat ∈ l.
Proof.
  intros Hl. unfold seats_of. rewrite lookup_insert_eq, elem_of_list_to_set.
  destruct l as [|x l]; [|by rewrite split_join_comma; auto].
  intros Hin. left. by apply list_elem_of_singleton in Hin.
Qed.

Lemma seats_of_insert_ne d k v :
  k ≠ "seats_display" → seats_of (<[k := v]> d) = seats_of d.
Proof. intros Hk. unfold seats_of. by rewrite lookup_insert_ne. Qed.

Lemma allocated_no_comma booked (l : list string) :
  l ⊆ available_seats all_seats_train booked →
  Forall (λ s, PyStr.no_comma s = true) l.
Proof.
  intros Hsub. apply Forall_forall. intros seat Hseat.
  apply Hsub, elem_of_available_seats in Hseat as [Hseat _].
  revert seat Hseat. apply Forall_forall, all_seats_train_no_comma.
Qed.

Lemma any_booked_false booked selected seat :
  any_booked booked selected = false → seat ∈ selected → seat ∉ booked.
Proof.
  intros Hany Hin Hb.
  assert (any_booked booked selected = true) by (apply any_booked_true; eauto).
  congruence.
Qed.

Ltac stamp_key :=
  match goal with
  | H : item_key ?I = Some ?p |- _ =>
      let Hd := fresh "Hd" in
      let Hu := fresh "Hu" in
      pose proof H as Hd; apply item_key_Some in Hd as [Hu Hd];
      revert Hu Hd; dict_lookups; intros Hu [= Hd];
      destruct p as [u t]; simpl in Hu, Hd; subst t
  end.

Ltac stamp_committed :=
  first
    [ apply (committed_intro _ _ _ _ _ _ []);
      [done|done|done|by intros e ?%elem_of_nil]
    | eapply (committed_intro _ _ _ _ _ _ [_]);
      [done|done|by rewrite <- app_assoc
      |intros e ->%list_elem_of_singleton; eauto] ].

(** What a train or bus finalize commits: the draft of the session, under
    the user the draft names, with seats that were free or are the empty
    identifier. *)
Lemma seat_commit_outcome f req env w :
  f = TrainFinalize ∨ f = BusFinalize →
  untouched w (run (finalize f req env) w).2 ∨
  ∃ Item owner draft item_id travel_date,
    committed w (run (finalize f req env) w).2 Item (owner, now_isoformat env) ∧
    pending_booking (sess w) = Some draft ∧
    draft !! "user_email" = Some (VStr owner) ∧
    Item !! "item_id" = Some (VStr item_id) ∧
    Item !! "travel_date" = Some (VStr travel_date) ∧
    ∀ seat, seat ∈ seats_of Item →
            seat = "" ∨ ¬ spec_taken (bookings_table w) item_id travel_date seat.
Proof.
  intros [-> | ->]; simpl.
  - unfold final_confirm_train_booking. hcases; first
      [ by left
      | stamp_key; right;
        match goal with
        | Hi : ?g !! "item_id" = Some (VStr ?i),
          Ht : ?g !! "travel_date" = Some (VStr ?t),
          Hb : booked_seats _ = Some ?booked,
          Hs : Random.sample _ _ _ = Some ?l,
          Hk : item_key ?I = Some (?u, _) |- _ =>
            exists I, u, g, i, t;
            apply booked_seats_query_Some in Hb; subst booked;
            apply sample_spec in Hs as (_ & _ & Hsub & _);
            split_and!; [stamp_committed|done|done|by dict_lookups
                        |by dict_lookups|];
            intros seat Hseat;
            rewrite !seats_of_insert_ne in Hseat by done;
            apply seats_of_join in Hseat as [?|Hseat];
              [by left|right|by eapply allocated_no_comma];
            apply Hsub, elem_of_available_seats in Hseat as [_ Hseat];
            by rewrite <- elem_of_taken_seats
        end ].
  - unfold final_confirm_bus_booking. hcases; first
      [ by left
      | stamp_key; right;
        match goal with
        | Hi : ?g !! "item_id" = Some (VStr ?i),
          Ht : ?g !! "travel_date" = Some (VStr ?t),
          Hb : booked_seats _ = Some ?booked,
          Ha : any_booked _ _ = false,
          Hk : item_key ?I = Some (?u, _) |- _ =>
            exists I, u, g, i, t;
            apply booked_seats_query_Some in Hb; subst booked;
            split_and!; [stamp_committed|done|done|by dict_lookups
                        |by dict_lookups|];
            intros seat Hseat; right;
            rewrite !seats_of_insert_ne in Hseat by done;
            unfold seats_of in Hseat;
            rewrite lookup_insert_eq, elem_of_list_to_set in Hseat;
            rewrite <- elem_of_taken_seats;
            by eapply any_booked_false
        end ].
Qed.

(** What a flight or hotel finalize commits is stored under the user who is
    logged in. *)
Lemma flight_hotel_owner f req env w :
  f = FlightFinalize ∨ f = HotelFinalize →
  untouched w (run (finalize f req env) w).2 ∨
  ∃ Item owner,
    committed w (run (finalize f req env) w).2 Item (owner, now_isoformat env) ∧
    email (sess w) = Some owner.
Proof.
  intros [-> | ->]; simpl.
  - unfold confirm_flight_booking. hcases; first
      [ by left
      | stamp_key; right;
        match goal with
        | Hk : item_key ?I = Some (?u, _) |- _ => exists I, u
        end;
        split; [stamp_committed|congruence] ].
  - unfold confirm_hotel_booking. hcases; first
      [ by left
      | stamp_key; right;
        match goal with
        | Hk : item_key ?I = Some (?u, _) |- _ => exists I, u
        end;
        split; [stamp_committed|congruence] ].
Qed.

Lemma contribution_spec_taken db k b i t seat :
  db !! k = Some b → seat ∈ contribution b i t → spec_taken db i t seat.
Proof.
  intros Hk (Hi & Ht & s & Hs & Hin)%elem_of_contribution. by exists k, b, s.
Qed.

Lemma contribution_seats_of b i t seat :
  seat ∈ contribution b i t →
  b !! "item_id" = Some (VStr i) ∧ b !! "travel_date" = Some (VStr t) ∧
  seat ∈ seats_of b.
Proof.
  intros (Hi & Ht & Hs)%elem_of_contribution.
  by rewrite elem_of_seats_of.
Qed.

Lemma no_shared_seat_insert db k Item :
  no_shared_seat db →
  (∀ i t seat, seat ∈ contribution Item i t →
               seat = "" ∨ ¬ spec_taken db i t seat) →
  no_shared_seat (<[k := Item]> db).
Proof.
  intros Hdb Hfree k1 k2 b1 b2 i t seat Hne H1 H2 Hs1 Hs2.
  apply lookup_insert_Some in H1 as [[<- <-]|[Hk1 H1]];
    apply lookup_insert_Some in H2 as [[<- <-]|[Hk2 H2]].
  - done.
  - destruct (Hfree i t seat Hs1) as [?|Hnot]; [done|].
    destruct Hnot. by eapply contribution_spec_taken.
  - destruct (Hfree i t seat Hs2) as [?|Hnot]; [done|].
    destruct Hnot. by eapply contribution_spec_taken.
  - by eapply (Hdb k1 k2).
Qed.

Lemma no_shared_seat_delete db k :
  no_shared_seat db → no_shared_seat (delete k db).
Proof.
  intros Hdb k1 k2 b1 b2 i t seat Hne H1 H2.
  apply lookup_delete_Some in H1 as [_ H1], H2 as [_ H2]. by eapply Hdb.
Qed.

Lemma cancel_booking_table req env w :
  bookings_table (run (cancel_booking req env) w).2 = bookings_table w ∨
  ∃ k, bookings_table (run (cancel_booking req env) w).2 =
       delete k (bookings_table w).
Proof. unfold cancel_booking. hcases; eauto. Qed.

(** One request keeps bookings from sharing seats. *)
Lemma no_shared_seat_dispatch r req env w :
  world_ok w →
  no_shared_seat (bookings_table w) →
  no_shared_seat (bookings_table (run (dispatch r req env) w).2).
Proof.
  intros [Hty Hs] Hdb.
  destruct r as [| | | | |fin|];
    try (by match goal with
            | |- context [dispatch ?r _ _] =>
                destruct (display_route_read_only r req env w I) as [-> _]
            end).
  - destruct fin; cbn [dispatch].
    + destruct (seat_commit_outcome TrainFinalize req env w (or_introl eq_refl))
        as [[-> _]|(Item & owner & draft & i & t & Hc & _ & _ & Hi & Ht & Hfree)];
        [done|].
      destruct Hc as (_ & -> & _). apply no_shared_seat_insert; [done|].
      intros i' t' seat (Hi' & Ht' & Hseat)%contribution_seats_of.
      assert (i' = i) as -> by congruence.
      assert (t' = t) as -> by congruence. by apply Hfree.
    + destruct (seat_commit_outcome BusFinalize req env w (or_intror eq_refl))
        as [[-> _]|(Item & owner & draft & i & t & Hc & _ & _ & Hi & Ht & Hfree)];
        [done|].
      destruct Hc as (_ & -> & _). apply no_shared_seat_insert; [done|].
      intros i' t' seat (Hi' & Ht' & Hseat)%contribution_seats_of.
      assert (i' = i) as -> by congruence.
      assert (t' = t) as -> by congruence. by apply Hfree.
    + destruct (flight_hotel_outcome FlightFinalize req env w
                  (or_introl eq_refl) Hs)
        as [[-> _]|(Item & owner & Hc & Hid & _)]; [done|].
      destruct Hc as (_ & -> & _). apply no_shared_seat_insert; [done|].
      intros i t seat. rewrite contribution_no_item_id by done. set_solver.
    + destruct (flight_hotel_outcome HotelFinalize req env w
                  (or_intror eq_refl) Hs)
        as [[-> _]|(Item & owner & Hc & Hid & _)]; [done|].
      destruct Hc as (_ & -> & _). apply no_shared_seat_insert; [done|].
      intros i t seat. rewrite contribution_no_item_id by done. set_solver.
  - destruct (cancel_booking_table req env w) as [Heq|[k Heq]]; simpl;
      rewrite Heq; [done|by apply no_shared_seat_delete].
Qed.

Lemma no_shared_seat_empty : no_shared_seat (∅ : table).
Proof. intros k1 k2 b1 b2 i t seat _ H1. by rewrite lookup_empty in H1. Qed.

(** In every world the handlers reach, no two items of one item and date
    hold a seat in common. *)
Lemma reachable_no_shared_seat w :
  reachable w → no_shared_seat (bookings_table w).
Proof.
  induction 1 as [|w user Hw IH|w r req env Hw IH].
  - apply no_shared_seat_empty.
  - done.
  - apply no_shared_seat_dispatch; [by apply reachable_world_ok|done].
Qed.


(** X6.  The seats of the item a train or bus finalize commits were free
    for the item and date of the draft (or are the empty identifier), and
    are taken once it is stored: the next availability computation for that
    item and date returns none of them. *)
Theorem commit_takes_seats f req env w :
  f = TrainFinalize ∨ f = BusFinalize →
  let w' := (run (finalize f req env) w).2 in
  untouched w w' ∨
  ∃ Item owner item_id travel_date,
    committed w w' Item (owner, now_isoformat env) ∧
    Item !! "item_id" = Some (VStr item_id) ∧
    Item !! "travel_date" = Some (VStr travel_date) ∧
    ∀ seat, seat ∈ seats_of Item →
      (seat = "" ∨ ¬ spec_taken (bookings_table w) item_id travel_date seat) ∧
      spec_taken (bookings_table w') item_id travel_date seat ∧
      ∀ seat_universe available,
        computeAvailableSeats (bookings_table w') item_id travel_date
          seat_universe = Some available →
        seat ∉ available.
Proof.
  intros Hf w'. unfold w'.
  destruct (seat_commit_outcome f req env w Hf)
    as [?|(Item & owner & draft & i & t & Hc & _ & _ & Hi & Ht & Hfree)];
    [by left|].
  right. exists Item, owner, i, t. split_and!; try done.
  intros seat Hseat.
  assert (Htaken : spec_taken (bookings_table (run (finalize f req env) w).2)
                     i t seat).
  { destruct Hc as (_ & -> & _).
    apply (contribution_spec_taken _ (owner, now_isoformat env) Item).
    - apply lookup_insert_eq.
    - apply elem_of_contribution. split_and!; try done.
      by apply elem_of_seats_of. }
  split_and!; [by apply Hfree|done|].
  intros U available Hav Hin.
  apply computeAvailableSeats_Some in Hav as (booked & Hb & ->).
  apply booked_seats_query_Some in Hb as ->.
  apply elem_of_available_seats in Hin as [_ Hin].
  by apply Hin, elem_of_taken_seats.
Qed.

(** X7.  Whose booking it is: a train or bus finalize stores the item under
    the [user_email] of the draft, whoever is logged in when it runs; a
    flight or hotel finalize stores it under the user who is logged in. *)
Theorem commit_owner f req env w :
  let w' := (run (finalize f req env) w).2 in
  untouched w w' ∨
  ∃ Item owner,
    committed w w' Item (owner, now_isoformat env) ∧
    match f with
    | TrainFinalize | BusFinalize =>
        ∃ draft, pending_booking (sess w) = Some draft ∧
                 draft !! "user_email" = Some (VStr owner)
    | FlightFinalize | HotelFinalize => email (sess w) = Some owner
    end.
Proof.
  intros w'. unfold w'. destruct f.
  - destruct (seat_commit_outcome TrainFinalize req env w (or_introl eq_refl))
      as [?|(Item & owner & draft & i & t & Hc & Hp & Hu & _)]; [by left|].
    right. exists Item, owner. eauto.
  - destruct (seat_commit_outcome BusFinalize req env w (or_intror eq_refl))
      as [?|(Item & owner & draft & i & t & Hc & Hp & Hu & _)]; [by left|].
    right. exists Item, owner. eauto.
  - destruct (flight_hotel_owner FlightFinalize req env w (or_introl eq_refl))
      as [?|(Item & owner & Hc & Hu)]; [by left|].
    right. exists Item, owner. eauto.
  - destruct (flight_hotel_owner HotelFinalize req env w (or_intror eq_refl))
      as [?|(Item & owner & Hc & Hu)]; [by left|].
    right. exists Item, owner. eauto.
Qed.

End SeatFacts.

(** * The train and bus flows, request after request *)

Section FlowRuns.

Context `{Lib : StdLib}.
Local Abbreviation item := (gmap string value).
Local Abbreviation table := (gmap (string * string) item).
Implicit Types (w : world) (d b : item) (db : table).

(** The details page of the train flow, when the request parses and the
    table can be read: what it answers and what it stores. *)
Lemma confirm_train_details_run req env w user s_price price s_persons
    persons total item_id travel_date booked :
  email (sess w) = Some user →
  args req !! "price" = Some s_price →
  Decimal_of_str s_price = Some price →
  args req !! "persons" = Some s_persons →
  int_of_str s_persons = Some persons →
  Decimal_mul price persons = Some total →
  args req !! "trainId" = Some item_id →
  args req !! "date" = Some travel_date →
  booked_seats (query_item_date (bookings_table w) item_id travel_date)
    = Some booked →
  let draft := train_booking_details req user price persons total in
  let available := available_seats all_seats_train booked in
  ¬ Z.of_nat (length available) < persons →
  run (confirm_train_details req env) w =
    (match Random.sample (randbelow env) available
             (Z.of_nat (length available) `min` persons) with
     | Some seats => RenderTrainDetails draft seats
     | None => Raised ValueError
     end,
     with_pending_booking (Some draft) w).
Proof.
  intros Hu Hpr Hprice Hpe Hpers Hmul Hid Hdate Hb draft available Hlt.
  unfold confirm_train_details.
  hunfold. rewrite Hu. hunfold. rewrite Hpr, Hprice, Hpe, Hpers, Hmul.
  replace (train_booking_details req user price persons total !! "item_id")
    with (Some (opt_str (args req !! "trainId"))) by done.
  replace (train_booking_details req user price persons total !! "travel_date")
    with (Some (opt_str (args req !! "date"))) by done.
  replace (train_booking_details req user price persons total !! "num_persons")
    with (Some (VInt persons)) by done.
  rewrite Hid, Hdate. cbn [opt_str]. hunfold. rewrite Hb.
  rewrite decide_False by done. hunfold.
  fold available. by destruct (Random.sample _ _ _).
Qed.

(** The train finalize on a draft with the keys it reads, once the seats
    are drawn: what it answers and what it stores. *)
Lemma final_confirm_train_booking_run req env w user draft item_id
    travel_date persons owner booked allocated :
  email (sess w) = Some user →
  pending_booking (sess w) = Some draft →
  draft !! "item_id" = Some (VStr item_id) →
  draft !! "travel_date" = Some (VStr travel_date) →
  draft !! "num_persons" = Some (VInt persons) →
  draft !! "user_email" = Some (VStr owner) →
  booked_seats (query_item_date (bookings_table w) item_id travel_date)
    = Some booked →
  ¬ Z.of_nat (length (available_seats all_seats_train booked)) < persons →
  Random.sample (randbelow env) (available_seats all_seats_train booked)
    persons = Some allocated →
  let Item :=
    <["booking_date" := VStr (now_isoformat env)]>
      (<["booking_id" := VStr (uuid4 env)]>
         (<["seats_display" := VStr (PyStr.join_comma allocated)]> draft)) in
  let stored :=
    mkWorld (<[(owner, now_isoformat env) := Item]> (bookings_table w))
      (sess (with_pending_booking None w))
      (trace w ++ [PutItem Item]) in
  run (final_confirm_train_booking req env) w =
    match draft !! "train_number", draft !! "source", draft !! "destination",
          draft !! "total_price" with
    | Some train_number, Some source, Some destination, Some total_price =>
        (Json true "Train booking confirmed successfully!" 200,
         mkWorld (bookings_table stored) (sess stored)
           (trace w ++
            [PutItem Item;
             Publish "Train Booking Confirmed"
               (train_message train_number source destination
                  (VStr travel_date) (VStr (PyStr.join_comma allocated))
                  total_price)]))
    | None, _, _, _ => (Raised (KeyError "train_number"), stored)
    | _, None, _, _ => (Raised (KeyError "source"), stored)
    | _, _, None, _ => (Raised (KeyError "destination"), stored)
    | _, _, _, None => (Raised (KeyError "total_price"), stored)
    end.
Proof.
  intros Hu Hp Hi Ht Hn Ho Hb Hlt Hs Item stored.
  assert (Hkey : item_key Item = Some (owner, now_isoformat env)).
  { apply item_key_Some. unfold Item. simpl. by dict_lookups. }
  unfold final_confirm_train_booking.
  hunfold. rewrite Hu. hunfold. rewrite Hp, (dict_empty_false _ _ _ Hi).
  rewrite Hi, Ht. hunfold. rewrite Hb, Hn. hunfold.
  rewrite decide_False by done. hunfold. rewrite Hs.
  fold Item. rewrite Hkey. hunfold. unfold Item. dict_lookups. rewrite Ht.
  unfold stored, with_pending_booking. cbn [bookings_table sess trace email
    pending_flight_booking pending_hotel_booking].
  destruct (draft !! "train_number"); [|done].
  destruct (draft !! "source"); [|done].
  destruct (draft !! "destination"); [|done].
  destruct (draft !! "total_price"); [|done].
  hunfold. by rewrite <- app_assoc.
Qed.





(** X10.  The train details page asked for a negative number of persons
    passes the seat check and fails in [random.sample]: the request raises
    [ValueError], whatever the table holds. *)
Theorem confirm_train_details_negative_persons req env w user s_price price
    s_persons persons total item_id travel_date :
  email (sess w) = Some user →
  args req !! "price" = Some s_price →
  Decimal_of_str s_price = Some price →
  args req !! "persons" = Some s_persons →
  int_of_str s_persons = Some persons →
  Decimal_mul price persons = Some total →
  args req !! "trainId" = Some item_id →
  args req !! "date" = Some travel_date →
  store_typed (bookings_table w) →
  persons < 0 →
  (run (confirm_train_details req env) w).1 = Raised ValueError ∧
  untouched w (run (confirm_train_details req env) w).2.
Proof.
  intros Hu Hpr Hprice Hpe Hpers Hmul Hid Hdate Hty Hneg.
  pose proof (booked_seats_query _ item_id travel_date Hty) as Hb.
  rewrite (confirm_train_details_run req env w user s_price price s_persons
             persons total item_id travel_date _ Hu Hpr Hprice Hpe Hpers Hmul
             Hid Hdate Hb) by lia.
  cbn [fst snd]. split; [|done].
  unfold Random.sample. by rewrite decide_False by lia.
Qed.



(** X12.  Whenever the train details page is shown, the seats on it are
    distinct seats of the train that no stored booking of that train and
    date holds, as many as the persons asked for, and the draft on the page
    is the one stored in the session. *)
Theorem train_page_seats req env w draft seats :
  (run (confirm_train_details req env) w).1 = RenderTrainDetails draft seats →
  pending_booking (sess (run (confirm_train_details req env) w).2)
    = Some draft ∧
  ∃ persons,
    draft !! "num_persons" = Some (VInt persons) ∧
    Z.of_nat (length seats) = persons ∧
    NoDup seats ∧
    ∀ seat, seat ∈ seats →
      seat ∈ all_seats_train ∧
      ∀ item_id travel_date,
        draft !! "item_id" = Some (VStr item_id) →
        draft !! "travel_date" = Some (VStr travel_date) →
        ¬ spec_taken (bookings_table w) item_id travel_date seat.
Proof.
  unfold confirm_train_details. hcases; try done.
  intros [= <- <-]. split; [done|].
  match goal with
  | H : Random.sample _ _ _ = Some _ |- _ =>
      apply sample_spec in H as (Hk & Hlen & Hsub & Hnd)
  end.
  eexists. split; [done|]. split; [lia|]. split.
  { apply Hnd, available_seats_NoDup, all_seats_train_NoDup. }
  intros seat Hseat. apply Hsub, elem_of_available_seats in Hseat
    as [Hall Hfree].
  split; [done|]. intros i t Hi Ht Htaken. apply Hfree.
  match goal with
  | H : booked_seats (query_item_date _ ?a ?b) = Some _ |- _ =>
      apply booked_seats_query_Some in H as ->
  end.
  apply elem_of_taken_seats. by simplify_eq.
Qed.


(** X13.  Whenever the bus seat page is shown, it lists the forty seats S1 to
    S40, marks as booked exactly the seats some stored booking of that bus
    and date holds, and the draft on the page is the one stored in the
    session; no count of persons is checked against the free seats. *)
Theorem bus_page_seats req env w draft booked all_seats :
  (run (select_bus_seats req env) w).1 = RenderBusSeats draft booked all_seats →
  all_seats = all_seats_bus ∧
  pending_booking (sess (run (select_bus_seats req env) w).2) = Some draft ∧
  draft !! "booking_type" = Some (VStr "bus") ∧
  draft !! "user_email" = Some (VStr (default "" (email (sess w)))) ∧
  ∃ item_id travel_date,
    draft !! "item_id" = Some (VStr item_id) ∧
    draft !! "travel_date" = Some (VStr travel_date) ∧
    ∀ seat, seat ∈ booked ↔
            spec_taken (bookings_table w) item_id travel_date seat.
Proof.
  unfold select_bus_seats. hcases; try done.
  intros [= <- <- <-]. split; [done|]. split; [done|].
  split; [done|]. split; [done|].
  match goal with
  | H : booked_seats (query_item_date _ ?a ?b) = Some _ |- _ =>
      apply booked_seats_query_Some in H as ->; exists a, b
  end.
  split; [done|]. split; [done|]. intros seat. apply elem_of_taken_seats.
Qed.

(** X14.  A cancellation removes at most one record, and only one stored under
    the email of the session: it adds or changes no record, leaves every
    record of another user in place, and keeps the session as it was. *)
Theorem cancel_only_own_record req env w :
  let w' := (run (cancel_booking req env) w).2 in
  sess w' = sess w ∧
  (∀ k b, bookings_table w' !! k = Some b → bookings_table w !! k = Some b) ∧
  (∀ k, email (sess w) ≠ Some k.1 →
        bookings_table w' !! k = bookings_table w !! k) ∧
  (∀ k k', bookings_table w' !! k = None → bookings_table w' !! k' = None →
           is_Some (bookings_table w !! k) →
           is_Some (bookings_table w !! k') → k = k').
Proof.
  unfold cancel_booking. hcases; cbn [bookings_table sess];
    (split; [by destruct w as [? []]|]).
  all: try (split; [done|]; split; [done|];
            intros k k' Hk Hk' [? ?] [? ?]; congruence).
  split; [|split].
  - intros k b. rewrite lookup_delete_Some. tauto.
  - intros [u t] Hne. simpl in Hne. apply lookup_delete_ne. congruence.
  - intros k k' Hk Hk' [b Hb] [b' Hb'].
    apply lookup_delete_None in Hk as [<-|]; [|congruence].
    apply lookup_delete_None in Hk' as [<-|]; [done|congruence].
Qed.

(** X15.  The cancellation trusts the posted [booking_date] alone: the posted
    [booking_id] is never compared with the stored record, which is removed
    whatever its own [booking_id], and the answer reports the posted one as
    cancelled. *)
Theorem cancel_ignores_booking_id req env w user booking_id booking_date :
  email (sess w) = Some user →
  form req !! "booking_id" = Some booking_id →
  booking_id ≠ "" →
  form req !! "booking_date" = Some booking_date →
  booking_date ≠ "" →
  (run (cancel_booking req env) w).1 =
    FlashRedirect ("Booking " +:+ booking_id +:+ " cancelled successfully!")
      "success" "dashboard" ∧
  bookings_table (run (cancel_booking req env) w).2 !! (user, booking_date)
    = None ∧
  (bookings_table w !! (user, booking_date) = None →
   bookings_table (run (cancel_booking req env) w).2 = bookings_table w).
Proof.
  intros Hu Hid Hid' Hdate Hdate'.
  rewrite (cancel_booking_deletes req env w user booking_id booking_date)
    by done.
  cbn [fst snd bookings_table]. split; [done|]. split.
  - apply lookup_delete_eq.
  - apply delete_id.
Qed.

(** X16.  Booking and cancelling is a round trip: when a finalize stored a
    record under a key that was free, cancelling with the [booking_date] of
    that request gives back the table as it was before the booking. *)
Theorem commit_then_cancel f req env req' env' w user booking_id Item :
  email (sess w) = Some user →
  committed w (run (finalize f req env) w).2 Item (user, now_isoformat env) →
  bookings_table w !! (user, now_isoformat env) = None →
  form req' !! "booking_id" = Some booking_id →
  booking_id ≠ "" →
  form req' !! "booking_date" = Some (now_isoformat env) →
  now_isoformat env ≠ "" →
  bookings_table
    (run (cancel_booking req' env') (run (finalize f req env) w).2).2
    = bookings_table w.
Proof.
  intros Hu (_ & Hdb & _) Hfresh Hid Hid' Hdate Hdate'.
  pose proof (dispatch_email (Finalize f) req env w) as He. simpl in He.
  rewrite Hu in He.
  rewrite (cancel_booking_deletes req' env' _ user booking_id
             (now_isoformat env)) by done.
  cbn [snd bookings_table]. rewrite Hdb. by apply delete_insert_id.
Qed.

End FlowRuns.

(** * Pages that only show *)

Section PageFacts.

Context `{Lib : StdLib}.

(** X17.  The details pages of the four flows and the bus seat page write no
    record, delete none and publish nothing, whatever they are asked and
    whatever they answer: only a finalize or a cancellation does. *)
Theorem pages_never_write r req env w :
  display_route r →
  untouched w (run (dispatch r req env) w).2.
Proof. apply display_route_read_only. Qed.

End PageFacts.

(** * Accounts and the dashboard *)

Section AccountFacts.

Context `{Lib : StdLib} {Conv : FloatConv} {Hash : Werkzeug}.
Local Abbreviation item := (gmap string value).
Local Abbreviation table := (gmap (string * string) item).
Implicit Types (s : site) (w : world) (db : table).

Lemma register_users method req salt s :
  users_table s ⊆ users_table (register method req salt s).2 ∧
  app (register method req salt s).2 = app s.
Proof.
  unfold register. repeat case_match; simpl; try done.
  split; [|done]. by apply insert_subseteq.
Qed.

Lemma login_users method req s :
  users_table (login method req s).2 = users_table s.
Proof. unfold login. by repeat case_match. Qed.

Lemma serve_users q s : users_table s ⊆ users_table (serve q s).2.
Proof.
  destruct q; simpl; try done.
  - apply register_users.
  - by rewrite login_users.
  - unfold dashboard. by case_match.
  - unfold train, search_page. by case_match.
  - unfold bus, search_page. by case_match.
  - unfold flight, search_page. by case_match.
  - unfold hotel, search_page. by case_match.
Qed.

(** X18.  No request changes or removes an account: the users table only
    grows, so an email once registered keeps its record, and with it its
    password hash, whatever is requested afterwards. *)
Theorem accounts_persist q s :
  users_table s ⊆ users_table (serve q s).2.
Proof. apply serve_users. Qed.

(** X19.  Registering and logging in is a round trip when the hash library
    verifies the password it hashed: a registration with a fresh email
    succeeds, and a login with the same form then sets the session to that
    email, keeping the drafts and the tables. *)
Theorem register_then_login req salt s user_email password :
  form req !! "email" = Some user_email →
  form req !! "password" = Some password →
  users_table s !! user_email = None →
  check_password_hash (generate_password_hash salt password) password = true →
  (register POST req salt s).1 =
    Answer (FlashRedirect "Registration successful! Please log in."
              "success" "login") ∧
  login POST req (register POST req salt s).2 =
    (Answer (FlashRedirect "Logged in successfully!" "success" "dashboard"),
     mkSite (users_table (register POST req salt s).2)
       (set_email (Some user_email) (app s))).
Proof.
  intros He Hp Hfresh Hcheck. unfold register. rewrite He, Hp, Hfresh.
  split; [done|]. unfold login. cbn [snd users_table app].
  rewrite He, Hp, lookup_insert_eq.
  rewrite lookup_insert_ne by done. rewrite lookup_insert_eq.
  by rewrite Hcheck.
Qed.

(** X20.  A login changes the site only by setting the session to the posted
    email, and only when an account of that email exists whose stored hash
    verifies the posted password; any other login request leaves the site,
    the current login included, as it was. *)
Theorem login_only_verified method req s :
  (login method req s).2 = s ∨
  ∃ user_email password user pwhash,
    method = POST ∧
    form req !! "email" = Some user_email ∧
    form req !! "password" = Some password ∧
    users_table s !! user_email = Some user ∧
    user !! "password" = Some (VStr pwhash) ∧
    check_password_hash pwhash password = true ∧
    login method req s =
      (Answer (FlashRedirect "Logged in successfully!" "success" "dashboard"),
       mkSite (users_table s) (set_email (Some user_email) (app s))).
Proof.
  unfold login. repeat case_match; try (by left).
  right. by eexists _, _, _, _.
Qed.


(** X21.  A logout removes the email only, so a draft outlives it: after a
    logout and the login of another account, the train finalize of the
    draft left behind books seats under the email written in the draft,
    not under the email of the session. *)
Theorem draft_outlives_logout req_login req env s draft owner other password
    user pwhash item_id travel_date persons :
  pending_booking (sess (app s)) = Some draft →
  draft !! "user_email" = Some (VStr owner) →
  draft !! "item_id" = Some (VStr item_id) →
  draft !! "travel_date" = Some (VStr travel_date) →
  draft !! "num_persons" = Some (VInt persons) →
  form req_login !! "email" = Some other →
  form req_login !! "password" = Some password →
  users_table s !! other = Some user →
  user !! "password" = Some (VStr pwhash) →
  check_password_hash pwhash password = true →
  store_typed (bookings_table (app s)) →
  0 ≤ persons ≤
    Z.of_nat (length (available_seats all_seats_train
                (taken_seats (bookings_table (app s)) item_id travel_date))) →
  let s1 := (serve Logout s).2 in
  let s2 := (serve (Login POST req_login) s1).2 in
  let s3 := (serve (Booking (Finalize TrainFinalize) req env) s2).2 in
  email (sess (app s1)) = None ∧
  email (sess (app s2)) = Some other ∧
  email (sess (app s3)) = Some other ∧
  ∃ allocated,
    Z.of_nat (length allocated) = persons ∧
    bookings_table (app s3) =
      <[(owner, now_isoformat env) :=
          <["booking_date" := VStr (now_isoformat env)]>
            (<["booking_id" := VStr (uuid4 env)]>
               (<["seats_display" := VStr (PyStr.join_comma allocated)]>
                  draft))]> (bookings_table (app s)).
Proof.
  intros Hp Ho Hi Ht Hn He Hpw Hu Hh Hcheck Hty Hpersons s1 s2 s3.
  pose proof (booked_seats_query _ item_id travel_date Hty) as Hb.
  destruct (sample_is_Some (randbelow env)
              (available_seats all_seats_train
                 (taken_seats (bookings_table (app s)) item_id travel_date))
              persons) as [allocated Hall]; [done|].
  assert (Hs2 : s2 = mkSite (users_table s) (set_email (Some other) (app s))).
  { unfold s2, s1. cbn [serve logout snd]. unfold login.
    cbn [users_table app]. rewrite He, Hpw, Hu, Hh, Hcheck.
    by destruct s as [? [? []]]. }
  split; [done|]. split; [by rewrite Hs2|].
  unfold s3. rewrite Hs2. cbn [serve snd app users_table dispatch finalize].
  rewrite (final_confirm_train_booking_run req env
             (set_email (Some other) (app s)) other draft item_id travel_date
             persons owner
             (taken_seats (bookings_table (app s)) item_id travel_date)
             allocated); try done; try lia.
  split.
  - by repeat case_match.
  - exists allocated. split.
    { by apply sample_spec in Hall as (_ & Hlen & _). }
    by repeat case_match.
Qed.

#[local] Instance later_total : Total later.
Proof. intros x y. unfold later. destruct (String.leb_total y.1.2 x.1.2); auto. Qed.

Lemma elem_of_query_user db user_email k b :
  (k, b) ∈ query_user db user_email ↔ k.1 = user_email ∧ db !! k = Some b.
Proof.
  unfold query_user. rewrite merge_sort_Permutation, list_elem_of_filter.
  by rewrite elem_of_map_to_list.
Qed.

Lemma query_user_NoDup db user_email :
  NoDup (query_user db user_email).*1.
Proof.
  unfold query_user. rewrite merge_sort_Permutation.
  apply (sublist_NoDup _ (map_to_list db).*1).
  - apply NoDup_fst_map_to_list.
  - apply fmap_sublist, sublist_filter.
Qed.

(** X22.  The dashboard of a logged-in user shows the records stored under
    the email of the session and no other, each once, the later
    [booking_date] first, and it changes nothing. *)
Theorem dashboard_own_bookings s user_email :
  email (sess (app s)) = Some user_email →
  ∃ rows,
    dashboard s =
      (DashboardPage user_email ((price_as_float ∘ snd) <$> rows), s) ∧
    (∀ k b, (k, b) ∈ rows ↔
            k.1 = user_email ∧ bookings_table (app s) !! k = Some b) ∧
    NoDup rows.*1 ∧
    Sorted (λ x y, String.leb y.1.2 x.1.2 = true) rows.
Proof.
  intros Hu. exists (query_user (bookings_table (app s)) user_email).
  split; [|split; [|split]].
  - unfold dashboard. rewrite Hu. by rewrite <- list_fmap_compose.
  - intros k b. apply elem_of_query_user.
  - apply query_user_NoDup.
  - apply (Sorted_merge_sort later).
Qed.

(** X23.  The price shown on the dashboard is a float: a [total_price] that
    converts is shown converted, one that does not is shown as [0.0], a
    record without one is shown as it is stored, and no other key of a
    record is changed. *)
Theorem dashboard_price_as_float (booking : item) :
  (∀ k, k ≠ "total_price" → price_as_float booking !! k = booking !! k) ∧
  match booking !! "total_price" with
  | None => price_as_float booking = booking
  | Some v =>
      price_as_float booking !! "total_price" =
        Some (VFloat (match to_float v with
                      | Some f => f
                      | None => float_zero
                      end))
  end.
Proof.
  unfold price_as_float. destruct (booking !! "total_price") as [v|] eqn:Hv.
  - split.
    + intros k Hk. by rewrite lookup_insert_ne.
    + rewrite lookup_insert_eq. by destruct (to_float v).
  - done.
Qed.

Lemma serve_reachable q s : reachable (app s) → reachable (app (serve q s).2).
Proof.
  intros Hs. destruct q; simpl; try done.
  - by destruct (register_users method req salt s) as [_ ->].
  - destruct (login_only_verified method req s)
      as [->|(e & p & u & h & _ & _ & _ & _ & _ & _ & ->)]; [done|].
    by apply reachable_login.
  - by apply reachable_login.
  - unfold dashboard. by case_match.
  - unfold train, search_page. by case_match.
  - unfold bus, search_page. by case_match.
  - unfold flight, search_page. by case_match.
  - unfold hotel, search_page. by case_match.
  - by apply reachable_step.
Qed.

Lemma site_reachable_app s : site_reachable s → reachable (app s).
Proof.
  induction 1 as [|s q _ IH]; [apply reachable_init|by apply serve_reachable].
Qed.

(** X24.  Over the whole site, whatever requests are served from empty
    tables on: every stored record has a string [seats_display] or none, so
    the availability computation always returns; no two records of one item
    and date hold a seat in common; and an account exists only for an email
    some registration posted, with a string as its password hash. *)
Theorem site_invariant s :
  site_reachable s →
  world_ok (app s) ∧
  no_shared_seat (bookings_table (app s)) ∧
  (∀ item_id travel_date seat_universe,
     is_Some (computeAvailableSeats (bookings_table (app s)) item_id
                travel_date seat_universe)) ∧
  (∀ user_email user, users_table s !! user_email = Some user →
     user !! "email" = Some (VStr user_email) ∧
     ∃ pwhash, user !! "password" = Some (VStr pwhash)).
Proof.
  intros Hs. pose proof (site_reachable_app s Hs) as Hr.
  pose proof (reachable_world_ok _ Hr) as Hok.
  split; [done|]. split; [by apply reachable_no_shared_seat|]. split.
  - intros i t U. rewrite computeAvailableSeats_typed by apply Hok. eauto.
  - clear Hr Hok. induction Hs as [|s q _ IH]; [done|].
    intros e u. destruct q; simpl; try apply IH.
    + unfold register. repeat case_match; try apply IH.
      cbn [snd users_table]. intros [[<- <-]|[_ Hu]]%lookup_insert_Some.
      * split; [done|]. eexists. by rewrite lookup_insert_ne.
      * by apply IH.
    + rewrite login_users. apply IH.
    + unfold dashboard. case_match; apply IH.
    + unfold train, search_page. case_match; apply IH.
    + unfold bus, search_page. case_match; apply IH.
    + unfold flight, search_page. case_match; apply IH.
    + unfold hotel, search_page. case_match; apply IH.
Qed.

End AccountFacts.

(** * The flight and hotel pages *)

Section FlightHotelPages.

Context `{Lib : StdLib}.
Local Abbreviation item := (gmap string value).
Implicit Types (w : world) (b : item).

(** X25.  The flight page needs all its ten arguments: when one of them is
    missing, the request fails, with the 400 of a missing key or with the
    [ValueError] of an argument read before it, and no draft is stored. *)
Theorem flight_details_missing_arg req env w user k :
  email (sess w) = Some user →
  k ∈ flight_args →
  args req !! k = None →
  ∃ e,
    run (confirm_flight_details req env) w = (Raised e, w) ∧
    (e = ValueError ∨
     ∃ k', k' ∈ flight_args ∧ args req !! k' = None ∧
           e = BadRequestKeyError k').
Proof.
  intros Hu Hk Hnone. unfold confirm_flight_details.
  hunfold. rewrite Hu. hcases;
    try (eexists; split; [done|]; first
           [ by left
           | right; eexists; split_and!; [|eassumption|done];
             unfold flight_args; set_solver ]).
  exfalso. unfold flight_args in Hk.
  repeat (apply elem_of_cons in Hk as [->|Hk]; [congruence|]).
  by apply elem_of_nil in Hk.
Qed.

(** X26.  Whenever the flight page is shown, its draft is the one stored
    under [pending_flight_booking]; it holds the eight texts of the request,
    the parsed passengers and price and their product as total; it names no
    user yet and no item or seats. *)
Theorem flight_page_draft req env w template b :
  (run (confirm_flight_details req env) w).1 = Render template b →
  pending_flight_booking (sess (run (confirm_flight_details req env) w).2)
    = Some b ∧
  (∃ s_passengers passengers s_price price,
     args req !! "passengers" = Some s_passengers ∧
     int_of_str s_passengers = Some passengers ∧
     args req !! "price" = Some s_price ∧
     float_of_str s_price = Some price ∧
     b !! "num_persons" = Some (VInt passengers) ∧
     b !! "price_per_person" = Some (VFloat price) ∧
     b !! "total_price" = Some (VFloat (float_mul price passengers))) ∧
  b !! "travel_date" = VStr <$> args req !! "date" ∧
  b !! "source" = VStr <$> args req !! "source" ∧
  b !! "destination" = VStr <$> args req !! "destination" ∧
  b !! "airline" = VStr <$> args req !! "airline" ∧
  b !! "user_email" = None ∧
  b !! "item_id" = None ∧
  b !! "seats_display" = None.
Proof.
  unfold confirm_flight_details. hcases; try done.
  intros [= <- <-]. split; [done|]. split.
  { eexists _, _, _, _. split_and!; try eassumption; done. }
  repeat match goal with H : args req !! _ = Some _ |- _ => rewrite H end.
  done.
Qed.


End FlightHotelPages.

Module ExtraScenarios.

Import Demo DemoSite.
#[local] Existing Instance whole_numbers.
#[local] Existing Instance whole_floats.
#[local] Existing Instance salted.

Example registered_users :
  users_table s_registered !! alice =
    Some (<["email" := VStr alice]> (<["password" := VStr "salt$secret"]> ∅)).
Proof. reflexivity. Qed.

Example alice_logged_in : email (sess (app s_alice)) = Some alice.
Proof. reflexivity. Qed.

Example wrong_password :
  serve (Login POST (login_request alice "guess")) s_registered =
    (FlashTemplate "Invalid email or password!" "error" "login.html",
     s_registered).
Proof. reflexivity. Qed.

Example bob_books_for_alice :
  email (sess (app s_bob_confirms)) = Some bob ∧
  bookings_table (app s_bob_confirms) =
    {[ (alice, now_isoformat env2) :=
         stamped (train_draft 3) "S4, S12, S20" env2 ]}.
Proof. split; reflexivity. Qed.

Example dashboard_two_bookings :
  ∃ flight_item,
    (dashboard s_two_bookings).1 =
      DashboardPage alice
        [ flight_item;
          <["total_price" := VFloat 750]>
            (stamped (train_draft 3) "S4, S12, S20" env2) ] ∧
    flight_item !! "booking_date" = Some (VStr (now_isoformat env3)).
Proof. eexists. split; reflexivity. Qed.


(** The booking of Alice cannot be cancelled by a visitor who is not logged
    in. *)
Lemma not_logged_in_no_effect_witness :
  run (cancel_booking (cancel_request (uuid4 env2) (now_isoformat env2)) env3)
      (set_email None w_train_booked) =
    (Redirect "login", set_email None w_train_booked).
Proof.
  exact (not_logged_in_no_effect CancelBooking
           (cancel_request (uuid4 env2) (now_isoformat env2)) env3
           (set_email None w_train_booked) eq_refl).
Defined.



Lemma commit_takes_seats_witness :
  untouched w_train_details w_train_booked ∨
  ∃ Item owner item_id travel_date,
    committed w_train_details w_train_booked Item (owner, now_isoformat env2) ∧
    Item !! "item_id" = Some (VStr item_id) ∧
    Item !! "travel_date" = Some (VStr travel_date) ∧
    ∀ seat, seat ∈ seats_of Item →
      (seat = "" ∨
       ¬ spec_taken (bookings_table w_train_details) item_id travel_date seat) ∧
      spec_taken (bookings_table w_train_booked) item_id travel_date seat ∧
      ∀ seat_universe available,
        computeAvailableSeats (bookings_table w_train_booked) item_id
          travel_date seat_universe = Some available →
        seat ∉ available.
Proof.
  exact (commit_takes_seats TrainFinalize no_request env2 w_train_details
           (or_introl eq_refl)).
Defined.




Lemma confirm_train_details_negative_persons_witness :
  (run (confirm_train_details (train_request "-1") env1) w_alice_signed).1 =
    Raised ValueError ∧
  untouched w_alice_signed
    (run (confirm_train_details (train_request "-1") env1) w_alice_signed).2.
Proof.
  apply (confirm_train_details_negative_persons (Lib := signed_numbers)
           (train_request "-1") env1 w_alice_signed alice "250" 250 "-1" (-1)
           (-250) "T100" "2024-06-01");
    first [reflexivity | apply store_typed_empty | lia].
Defined.


Lemma train_page_seats_witness :
  pending_booking (sess w_train_details) = Some (train_draft 3) ∧
  NoDup ["S4"; "S12"; "S20"] ∧
  ∀ seat, seat ∈ ["S4"; "S12"; "S20"] →
    seat ∈ all_seats_train ∧
    ¬ spec_taken (bookings_table w_alice) "T100" "2024-06-01" seat.
Proof.
  destruct (train_page_seats (train_request "3") env1 w_alice (train_draft 3)
              ["S4"; "S12"; "S20"] eq_refl)
    as (Hdraft & persons & _ & _ & Hnd & Hseats).
  split; [exact Hdraft|]. split; [exact Hnd|].
  intros seat Hseat. destruct (Hseats seat Hseat) as [Hall Hfree].
  split; [exact Hall|]. exact (Hfree "T100" "2024-06-01" eq_refl eq_refl).
Defined.

Lemma bus_page_seats_witness :
  ∃ booked,
    (run (select_bus_seats bus_request env3) w_bus_booked).1 =
      RenderBusSeats bus_draft booked all_seats_bus ∧
    ∀ seat, seat ∈ booked ↔
            spec_taken (bookings_table w_bus_booked) "B7" "2024-06-01" seat.
Proof.
  eexists. split; [reflexivity|].
  destruct (bus_page_seats bus_request env3 w_bus_booked _ _ _ eq_refl)
    as (_ & _ & _ & _ & i & t & Hi & Ht & Hiff).
  injection Hi as <-. injection Ht as <-. exact Hiff.
Defined.

(** Alice cancels with the date of her train booking and the id of
    something else. *)
Lemma cancel_ignores_booking_id_witness :
  stamped (train_draft 3) "S4, S12, S20" env2 !! "booking_id" =
    Some (VStr "id-0002") ∧
  (run (cancel_booking (cancel_request "id-9999" (now_isoformat env2)) env3)
     w_train_booked).1 =
    FlashRedirect "Booking id-9999 cancelled successfully!" "success"
      "dashboard" ∧
  bookings_table
    (run (cancel_booking (cancel_request "id-9999" (now_isoformat env2)) env3)
       w_train_booked).2 !! (alice, now_isoformat env2) = None.
Proof.
  split; [reflexivity|].
  destruct (cancel_ignores_booking_id
              (cancel_request "id-9999" (now_isoformat env2)) env3
              w_train_booked alice "id-9999" (now_isoformat env2)
              eq_refl eq_refl ltac:(discriminate) eq_refl ltac:(discriminate))
    as (Hanswer & Hgone & _).
  split; [exact Hanswer|exact Hgone].
Defined.

Lemma train_booking_committed :
  committed w_train_details w_train_booked
    (stamped (train_draft 3) "S4, S12, S20" env2) (alice, now_isoformat env2).
Proof.
  split; [reflexivity|]. split; [reflexivity|].
  eexists [_]. split; [reflexivity|].
  intros e ->%list_elem_of_singleton. eauto.
Qed.

Lemma commit_then_cancel_witness :
  bookings_table w_cancelled = bookings_table w_train_details.
Proof.
  exact (commit_then_cancel TrainFinalize no_request env2
           (cancel_request (uuid4 env2) (now_isoformat env2)) env3
           w_train_details alice (uuid4 env2) _ eq_refl
           train_booking_committed eq_refl eq_refl ltac:(discriminate)
           eq_refl ltac:(discriminate)).
Defined.

Lemma pages_never_write_witness : untouched w_bus_booked w_bus_again.
Proof.
  exact (pages_never_write SelectBusSeats bus_request env3 w_bus_booked I).
Defined.

Lemma register_then_login_witness :
  (register POST (login_request alice "secret") "salt" empty_site).1 =
    Answer (FlashRedirect "Registration successful! Please log in."
              "success" "login") ∧
  login POST (login_request alice "secret")
    (register POST (login_request alice "secret") "salt" empty_site).2 =
    (Answer (FlashRedirect "Logged in successfully!" "success" "dashboard"),
     mkSite
       (users_table
          (register POST (login_request alice "secret") "salt" empty_site).2)
       w_alice).
Proof.
  exact (register_then_login (Hash := salted) (login_request alice "secret") "salt" empty_site
           alice "secret" eq_refl eq_refl eq_refl eq_refl).
Defined.

Lemma draft_outlives_logout_witness :
  email (sess (app s_bob_confirms)) = Some bob ∧
  ∃ allocated,
    Z.of_nat (length allocated) = 3 ∧
    bookings_table (app s_bob_confirms) =
      <[(alice, now_isoformat env2) :=
          stamped (train_draft 3) (PyStr.join_comma allocated) env2]> ∅.
Proof.
  assert (Hfree : 0 ≤ 3 ≤
    Z.of_nat (length (available_seats all_seats_train
                        (taken_seats (bookings_table (app s_alice_draft))
                           "T100" "2024-06-01")))).
  { change (0 ≤ 3 ≤ 100). lia. }
  destruct (draft_outlives_logout (Hash := salted)
              (login_request bob "hunter2") no_request
              env2 s_alice_draft (train_draft 3) alice bob "hunter2"
              (<["email" := VStr bob]> (<["password" := VStr "pepper$hunter2"]> ∅))
              "pepper$hunter2" "T100" "2024-06-01" 3
              eq_refl eq_refl eq_refl eq_refl eq_refl eq_refl eq_refl eq_refl
              eq_refl eq_refl store_typed_empty Hfree)
    as (_ & _ & Hbob & allocated & Hlen & Htable).
  split; [exact Hbob|]. exists allocated. split; [exact Hlen|exact Htable].
Defined.

Lemma dashboard_own_bookings_witness :
  ∃ rows,
    dashboard s_two_bookings =
      (DashboardPage alice ((price_as_float ∘ snd) <$> rows), s_two_bookings) ∧
    (∀ k b, (k, b) ∈ rows ↔
            k.1 = alice ∧ bookings_table w_flight_booked !! k = Some b) ∧
    NoDup rows.*1 ∧
    Sorted (λ x y, String.leb y.1.2 x.1.2 = true) rows.
Proof.
  exact (dashboard_own_bookings (Conv := whole_floats) s_two_bookings alice
           eq_refl).
Defined.

Lemma s_bob_confirms_reachable : site_reachable s_bob_confirms.
Proof.
  apply (site_reachable_serve _ (Booking (Finalize TrainFinalize) no_request env2)).
  apply (site_reachable_serve _ (Login POST (login_request bob "hunter2"))).
  apply (site_reachable_serve _ Logout).
  apply (site_reachable_serve _ (Booking ConfirmTrainDetails (train_request "3") env1)).
  apply (site_reachable_serve _ (Login POST (login_request alice "secret"))).
  apply (site_reachable_serve _ (Register POST (login_request bob "hunter2") "pepper")).
  apply (site_reachable_serve _ (Register POST (login_request alice "secret") "salt")).
  apply site_reachable_init.
Qed.

Lemma site_invariant_witness :
  world_ok (app s_bob_confirms) ∧
  no_shared_seat (bookings_table (app s_bob_confirms)) ∧
  (∀ item_id travel_date seat_universe,
     is_Some (computeAvailableSeats (bookings_table (app s_bob_confirms))
                item_id travel_date seat_universe)) ∧
  (∀ user_email user, users_table s_bob_confirms !! user_email = Some user →
     user !! "email" = Some (VStr user_email) ∧
     ∃ pwhash, user !! "password" = Some (VStr pwhash)).
Proof.
  exact (site_invariant (Hash := salted) s_bob_confirms
           s_bob_confirms_reachable).
Defined.

Lemma flight_details_missing_arg_witness :
  ∃ e,
    run (confirm_flight_details flight_request_no_price env1) w_alice =
      (Raised e, w_alice) ∧
    (e = ValueError ∨
     ∃ k', k' ∈ flight_args ∧ args flight_request_no_price !! k' = None ∧
           e = BadRequestKeyError k').
Proof.
  assert (Hk : "price" ∈ flight_args).
  { apply list_elem_of_In. simpl. tauto. }
  exact (flight_details_missing_arg flight_request_no_price env1 w_alice alice
           "price" eq_refl Hk eq_refl).
Defined.

Example flight_without_price :
  run (confirm_flight_details flight_request_no_price env1) w_alice =
    (Raised (BadRequestKeyError "price"), w_alice).
Proof. reflexivity. Qed.

Lemma flight_page_draft_witness :
  ∃ b,
    (run (confirm_flight_details flight_request env1) w_alice).1 =
      Render "confirm_flight_details.html" b ∧
    b !! "total_price" = Some (VFloat 4000) ∧
    b !! "user_email" = None ∧
    pending_flight_booking
      (sess (run (confirm_flight_details flight_request env1) w_alice).2)
      = Some b.
Proof.
  eexists. split; [reflexivity|].
  destruct (flight_page_draft flight_request env1 w_alice _ _ eq_refl)
    as (Hdraft & _ & _ & _ & _ & _ & Huser & _).
  split; [reflexivity|]. split; [exact Huser|exact Hdraft].
Defined.


End ExtraScenarios.
